(** * BudgetBuddy: aggregation helpers, dashboard feed and report builder

    A shallow embedding of [helpers.py] and of the [dashboard_data] route of
    [app.py], followed by the properties of the specification that concern
    them.

    Modelling conventions.
    - Amounts ([REAL] columns, Python numbers) are exact rationals [Q], and
      numeric results are compared with [==]. The rounding of binary
      floating point is outside this model; the health score, where it can
      change the integer returned, also has a binary64 embedding.
    - A Python exception is a value of [exn]; a call that can raise returns
      an [outcome].
    - A Python [dict] keeps insertion order, so it is an association list
      with unique keys.
    - The database is the list of rows of table [transactions]; each query
      is the list function it denotes. *)

From Stdlib Require Import ZArith QArith Qround Qabs Bool List String Ascii.
From Stdlib Require Import SpecFloat.
From Stdlib Require Import Lia Lqa Sorting.Sorted Sorting.Permutation.
From Stdlib Require DecimalString.
Import ListNotations.

Set Implicit Arguments.

#[local] Open Scope string_scope.
#[local] Open Scope Q_scope.

(** ** The Python runtime *)

Module Py.

(** Exceptions the modelled code can meet. [ExternalError] stands for any
    exception raised inside a library call (file system, layout engine). *)
Inductive exn : Type :=
| KeyError (key : string)
| IndexError
| ZeroDivisionError
| TypeError (msg : string)
| ValueError (msg : string)
| OverflowError (msg : string)
| ExternalError (msg : string).

Inductive outcome (A : Type) : Type :=
| Ok (a : A)
| Raise (e : exn).

Arguments Ok {A} a.
Arguments Raise {A} e.

Definition bind {A B} (m : outcome A) (k : A -> outcome B) : outcome B :=
  match m with
  | Ok a => k a
  | Raise e => Raise e
  end.

(** [str(e)], as printed by the handlers. *)
Definition str_exn (e : exn) : string :=
  match e with
  | KeyError k => "'" ++ k ++ "'"
  | IndexError => "list index out of range"
  | ZeroDivisionError => "division by zero"
  | TypeError m | ValueError m | OverflowError m | ExternalError m => m
  end.

(** [x or 0] for [x] a number or [None]: a falsy [x] ([None] or zero)
    gives [0]. *)
Definition or0 (x : option Q) : Q :=
  match x with
  | None => 0
  | Some q => if Qeq_bool q 0 then 0 else q
  end.

(** [a / b]: true division, raising on a zero divisor. *)
Definition truediv (a b : Q) : outcome Q :=
  if Qeq_bool b 0 then Raise ZeroDivisionError else Ok (a / b).

(** [int(x)]: the fractional part is dropped (truncation toward zero). *)
Definition int (x : Q) : Z := Z.quot (Qnum x) (Zpos (Qden x)).

(** [a > b] on numbers. *)
Definition gt (a b : Q) : bool := negb (Qle_bool a b).

(** [s.split(sep)] for a one-character separator: the maximal runs of
    characters between separators, empty runs included; never empty. *)
Fixpoint split (sep : ascii) (s : string) : list string :=
  match s with
  | EmptyString => [EmptyString]
  | String c r =>
      if Ascii.eqb c sep then EmptyString :: split sep r
      else match split sep r with
           | [] => [String c EmptyString]
           | w :: ws => String c w :: ws
           end
  end.

(** [l[i]] for a non-negative index. *)
Definition index {A} (l : list A) (i : nat) : outcome A :=
  match nth_error l i with
  | Some a => Ok a
  | None => Raise IndexError
  end.

(** [s[:n]]. *)
Definition take (n : nat) (s : string) : string := substring 0 n s.

(** [sorted(l, ...)]: Python's sort is stable. [before x y] holds when [x]
    need not move behind [y], that is when [y] is not strictly smaller than
    [x] in the order asked for; insertion from the right keeps equal
    elements in their original order. *)
Fixpoint insert {A} (before : A -> A -> bool) (x : A) (l : list A) : list A :=
  match l with
  | [] => [x]
  | y :: l' => if before x y then x :: l else y :: insert before x l'
  end.

Definition sorted {A} (before : A -> A -> bool) (l : list A) : list A :=
  fold_right (insert before) [] l.

(** Dictionaries keyed by strings: insertion-ordered, unique keys. *)
Section Dict.
Variable V : Type.

Definition dict : Type := list (string * V).

(** [d.get(k)]. *)
Fixpoint get (d : dict) (k : string) : option V :=
  match d with
  | [] => None
  | (k', v) :: d' => if String.eqb k k' then Some v else get d' k
  end.

(** [k in d]. *)
Definition contains (d : dict) (k : string) : bool :=
  match get d k with
  | Some _ => true
  | None => false
  end.

(** [d[k]]. *)
Definition getitem (d : dict) (k : string) : outcome V :=
  match get d k with
  | Some v => Ok v
  | None => Raise (KeyError k)
  end.

(** [d[k] = v]: an existing key keeps its position, a new one goes last. *)
Fixpoint set (d : dict) (k : string) (v : V) : dict :=
  match d with
  | [] => [(k, v)]
  | (k', v') :: d' =>
      if String.eqb k k' then (k', v) :: d' else (k', v') :: set d' k v
  end.

Definition keys (d : dict) : list string := map fst d.
Definition values (d : dict) : list V := map snd d.

(** [dict(items)]. *)
Definition of_items (items : list (string * V)) : dict :=
  fold_left (fun d kv => set d (fst kv) (snd kv)) items [].

(** [d[k]] on a [defaultdict]: a missing key is first bound to the
    default. The dictionary after the access comes with the value. *)
Definition default_getitem (default : V) (d : dict) (k : string) : dict * V :=
  match get d k with
  | Some v => (d, v)
  | None => (set d k default, default)
  end.

End Dict.

(** [o] if the key was there, else the default of [.get(key, default)]. *)
Definition get_or {A} (o : option A) (default : A) : A :=
  match o with
  | Some a => a
  | None => default
  end.

(** A loop whose body can raise: [for x in l: acc = body(acc, x)]. *)
Fixpoint for_each {A S} (body : S -> A -> outcome S) (l : list A) (acc : S)
  : outcome S :=
  match l with
  | [] => Ok acc
  | x :: l' =>
      match body acc x with
      | Ok acc' => for_each body l' acc'
      | Raise e => Raise e
      end
  end.

(** A comprehension whose element expression can raise:
    [[f(x) for x in l]]. *)
Fixpoint map_each {A B} (f : A -> outcome B) (l : list A) : outcome (list B) :=
  match l with
  | [] => Ok []
  | x :: l' =>
      match f x with
      | Ok y =>
          match map_each f l' with
          | Ok ys => Ok (y :: ys)
          | Raise e => Raise e
          end
      | Raise e => Raise e
      end
  end.

(** [sum(l)]. *)
Definition sum (l : list Q) : Q := fold_left Qplus l 0.

(** [round(x)]: to the nearest integer, a tie going to the even one. *)
Definition round (x : Q) : Z :=
  let f := Qfloor x in
  match Qcompare (x - inject_Z f) (1 # 2) with
  | Lt => f
  | Gt => (f + 1)%Z
  | Eq => if Z.even f then f else (f + 1)%Z
  end.

(** Number formatting, [format(x, ',.2f')] and [format(x, '.1f')]. *)
Definition digits (n : Z) : string :=
  DecimalString.NilZero.string_of_uint (N.to_uint (Z.to_N n)).

Fixpoint commas (k : nat) (rev_digits : list ascii) : list ascii :=
  match rev_digits with
  | [] => []
  | c :: r =>
      match k with
      | 3%nat => "," %char :: c :: commas 1 r
      | _ => c :: commas (S k) r
      end
  end.

Definition thousands (s : string) : string :=
  string_of_list_ascii (rev (commas 0 (rev (list_ascii_of_string s)))).

Fixpoint zeros (n : nat) : string :=
  match n with
  | O => ""
  | S n' => "0" ++ zeros n'
  end.

Definition format_f (grouping : bool) (places : nat) (x : Q) : string :=
  let scale := (10 ^ Z.of_nat places)%Z in
  let r := round (Qabs x * inject_Z scale) in
  let whole := digits (r / scale) in
  let frac := digits (r mod scale) in
  (if Qlt_le_dec x 0 then "-" else "")
  ++ (if grouping then thousands whole else whole)
  ++ (match places with
      | O => ""
      | _ => "." ++ zeros (places - String.length frac) ++ frac
      end).

(** [format(x, spec)] for [x] a number or [None]. *)
Definition format_number (grouping : bool) (places : nat) (x : option Q)
  : outcome string :=
  match x with
  | Some q => Ok (format_f grouping places q)
  | None =>
      Raise (TypeError "unsupported format string passed to NoneType.__format__")
  end.

(** [try: body  except Exception as e: handler(e)], with the lines the
    handler prints. *)
Definition try_except {A} (body : outcome A)
  (handler : exn -> outcome A * list string) : outcome A * list string :=
  match body with
  | Ok a => (Ok a, [])
  | Raise e => handler e
  end.

End Py.

Import Py.

Notation "x <- m ;; k" := (Py.bind m (fun x => k))
  (at level 61, m at next level, right associativity).

(** ** The data model *)

(** A transaction dictionary, as the helpers receive it. A field is [None]
    when the dictionary has no such key. *)
Record txn : Type := mk_txn {
  txn_id : option Z;
  txn_user_id : option Z;
  txn_description : option string;
  txn_category : option string;
  txn_type : option string;
  txn_amount : option Q;
  txn_date : option string
}.

(** [txn["date"] = d]. *)
Definition set_date (t : txn) (d : string) : txn :=
  mk_txn (txn_id t) (txn_user_id t) (txn_description t) (txn_category t)
    (txn_type t) (txn_amount t) (Some d).

(** A row of table [transactions]; every column is [NOT NULL]. *)
Record row : Type := mk_row {
  row_id : Z;
  row_user_id : Z;
  row_description : string;
  row_category : string;
  row_type : string;
  row_amount : Q;
  row_date : string
}.

Definition table : Type := list row.

(** [dict(r)] for a row of [SELECT *]. *)
Definition dict_of_row (r : row) : txn :=
  mk_txn (Some (row_id r)) (Some (row_user_id r)) (Some (row_description r))
    (Some (row_category r)) (Some (row_type r)) (Some (row_amount r))
    (Some (row_date r)).

(** [dict(r)] for a row of
    [SELECT date, amount, type, category, description]. *)
Definition dict_of_row5 (r : row) : txn :=
  mk_txn None None (Some (row_description r)) (Some (row_category r))
    (Some (row_type r)) (Some (row_amount r)) (Some (row_date r)).

(** ** SQLite *)

Module Sqlite.

(** The storage classes. *)
Inductive value : Type :=
| Null
| Integer (z : Z)
| Real (q : Q)
| Text (s : string)
| Blob (b : string).

(** [a = b] when no affinity conversion applies: [NULL] makes the result
    [NULL]; numbers compare by value; text and blobs compare bytewise within
    their class; values of different classes are never equal (a number sorts
    before any text, text before any blob). *)
Definition equals (a b : value) : option bool :=
  match a, b with
  | Null, _ | _, Null => None
  | Integer x, Integer y => Some (Z.eqb x y)
  | Integer x, Real y => Some (Qeq_bool (inject_Z x) y)
  | Real x, Integer y => Some (Qeq_bool x (inject_Z y))
  | Real x, Real y => Some (Qeq_bool x y)
  | Text x, Text y => Some (String.eqb x y)
  | Blob x, Blob y => Some (String.eqb x y)
  | _, _ => Some false
  end.

(** Three-valued [AND]. *)
Definition and3 (a b : option bool) : option bool :=
  match a, b with
  | Some false, _ | _, Some false => Some false
  | Some true, Some true => Some true
  | _, _ => None
  end.

(** [WHERE c] keeps a row when [c] is true, not when it is false or
    [NULL]. *)
Definition select_where (c : row -> option bool) (t : table) : table :=
  filter (fun r => match c r with Some true => true | _ => false end) t.

(** [SUM(amount)]: [NULL] over no rows. *)
Definition SUM (rows : table) : option Q :=
  match rows with
  | [] => None
  | _ => Some (Py.sum (map row_amount rows))
  end.

(** [ORDER BY date ASC] and [ORDER BY date DESC], text compared bytewise. *)
Definition order_by_date_asc (rows : table) : table :=
  Py.sorted (fun x y => String.leb (row_date x) (row_date y)) rows.

Definition order_by_date_desc (rows : table) : table :=
  Py.sorted (fun x y => String.leb (row_date y) (row_date x)) rows.

(** [SELECT category, SUM(amount) ... GROUP BY category]: one pair per
    category. SQL leaves the order of the groups open; here they come in
    order of first occurrence. *)
Definition group_by_category_sum (rows : table) : list (string * Q) :=
  fold_left
    (fun groups r =>
       Py.set groups (row_category r)
         (Py.get_or (Py.get groups (row_category r)) 0 + row_amount r))
    rows [].

(** [strftime('%m', timestring)]: the two-digit month as text, or [NULL]
    when the time string is not understood. SQLite's date parser is not part
    of the repository; this is its case of a time string that starts with a
    calendar date [YYYY-MM-DD] (what follows the date is not looked at). *)
Definition is_digit (c : ascii) : bool :=
  (48 <=? N_of_ascii c)%N && (N_of_ascii c <=? 57)%N.

Definition two_digits (a b : ascii) : N :=
  (10 * (N_of_ascii a - 48) + (N_of_ascii b - 48))%N.

Definition strftime_m (timestring : string) : option string :=
  match timestring with
  | String y1 (String y2 (String y3 (String y4 (String s1
      (String m1 (String m2 (String s2 (String d1 (String d2 _))))))))) =>
      if forallb is_digit [y1; y2; y3; y4; m1; m2; d1; d2]
         && Ascii.eqb s1 "-" && Ascii.eqb s2 "-"
         && (1 <=? two_digits m1 m2)%N && (two_digits m1 m2 <=? 12)%N
         && (1 <=? two_digits d1 d2)%N && (two_digits d1 d2 <=? 31)%N
      then Some (String m1 (String m2 EmptyString))
      else None
  | _ => None
  end.

End Sqlite.

(** ** ReportLab *)

Module reportlab.

(** The flowables the report is made of. A paragraph keeps its text and the
    name of its style, a table its cell texts. Fonts, colours, paddings and
    column widths do not decide which elements are emitted and are left
    out. *)
Inductive flowable : Type :=
| Paragraph (text : string) (style : string)
| Spacer (width height : Z)
| Table (data : list (list string)).

(** What the builder takes from outside: the clock, read once for the header
    and once for the footer, and the document template, whose construction
    and whose [build] write to the file system and can raise. *)
Record env : Type := mk_env {
  now_B_d_Y : string;
  now_Y_m_d_H_M_S : string;
  SimpleDocTemplate : string -> outcome unit;
  build : string -> list flowable -> outcome unit
}.

End reportlab.

Import reportlab.

(** ** helpers.py *)

Module helpers.

(** [get_transaction_data(user_id)]. *)
Definition get_transaction_data (db : table) (user_id : Z) : list txn :=
  let transactions :=
    Sqlite.order_by_date_desc
      (Sqlite.select_where
         (fun r => Sqlite.equals (Sqlite.Integer (row_user_id r))
                     (Sqlite.Integer user_id))
         db) in
  map dict_of_row5 transactions.

(** The rows of one user with one type:
    [WHERE user_id=? AND type='...']. *)
Definition of_user_and_type (user_id : Z) (type : string) (r : row)
  : option bool :=
  Sqlite.and3
    (Sqlite.equals (Sqlite.Integer (row_user_id r)) (Sqlite.Integer user_id))
    (Sqlite.equals (Sqlite.Text (row_type r)) (Sqlite.Text type)).

(** [get_transaction_summary(user_id)]. *)
Definition get_transaction_summary (db : table) (user_id : Z) : Q * Q * Q :=
  let total_income :=
    or0 (Sqlite.SUM
           (Sqlite.select_where (of_user_and_type user_id "income") db)) in
  let total_expenses :=
    or0 (Sqlite.SUM
           (Sqlite.select_where (of_user_and_type user_id "expenses") db)) in
  let balance := total_income - total_expenses in
  (total_income, total_expenses, balance).

(** [format_transactions(transactions)]. *)
Definition format_transaction (t : txn) : outcome txn :=
  date <- match txn_date t with
          | Some d => Ok d
          | None => Raise (KeyError "date")
          end ;;
  day <- index (split " " date) 0 ;;
  Ok (set_date t day).

Definition format_transactions (transactions : list txn)
  : outcome (list txn) :=
  map_each format_transaction transactions.

(** [get_category_summary(transactions)]. *)
Definition add_to_category (category_summary : dict Q) (t : txn)
  : outcome (dict Q) :=
  if match txn_type t with
     | Some ty => String.eqb ty "expense"
     | None => false
     end
  then
    let category := get_or (txn_category t) "Uncategorized" in
    let amount := get_or (txn_amount t) 0 in
    let category_summary :=
      if negb (contains category_summary category)
      then set category_summary category 0
      else category_summary in
    current <- getitem category_summary category ;;
    Ok (set category_summary category (current + amount))
  else Ok category_summary.

Definition get_category_summary (transactions : list txn)
  : outcome (dict Q) :=
  category_summary <- for_each add_to_category transactions [] ;;
  Ok (of_items
        (sorted (fun x y => Qle_bool (snd y) (snd x)) category_summary)).

(** [get_last_month_expenses(user_id)]. [last_month] is
    [(datetime.now() - timedelta(days=30)).month], bound to the query as an
    integer; [strftime] is SQLite's [strftime('%m', .)]. Neither operand of
    the month comparison is a column, so no affinity conversion applies. *)
Definition get_last_month_expenses (strftime : string -> option string)
  (last_month : Z) (db : table) (user_id : Z) : Q :=
  let month_of r :=
    match strftime (row_date r) with
    | Some m => Sqlite.Text m
    | None => Sqlite.Null
    end in
  let result :=
    Sqlite.SUM
      (Sqlite.select_where
         (fun r =>
            Sqlite.and3 (of_user_and_type user_id "expenses" r)
              (Sqlite.equals (month_of r) (Sqlite.Integer last_month)))
         db) in
  or0 result.

(** [calculate_financial_health(total_income, total_expenses)]. An argument
    is a number or [None]; the result is an [int] or [None]. *)
Definition calculate_financial_health (total_income total_expenses : option Q)
  : outcome (option Z) :=
  let total_expenses := or0 total_expenses in
  let total_income := or0 total_income in
  if Qeq_bool total_income 0 && Qeq_bool total_expenses 0 then Ok None
  else if Qeq_bool total_income 0 then Ok (Some 0%Z)
  else
    expense_ratio <- truediv total_expenses total_income ;;
    let health_score := Z.max 0 (100 - int (expense_ratio * 100)) in
    Ok (Some health_score).

(** [build_transaction_pdf]: the rows of the three tables. *)
Definition money (x : Q) : string := "$" ++ format_f true 2 x.

Definition summary_data (total_income total_expenses balance : option Q)
  : outcome (list (list string)) :=
  income <- format_number true 2 total_income ;;
  expenses <- format_number true 2 total_expenses ;;
  net <- format_number true 2 balance ;;
  Ok [ ["Metric"; "Amount"];
       ["Total Income"; "$" ++ income];
       ["Total Expenses"; "$" ++ expenses];
       ["Net Balance"; "$" ++ net] ].

Definition category_row (total_expenses_calc : Q) (item : string * Q)
  : outcome (list string) :=
  let (category, amount) := item in
  percentage <-
    (if gt total_expenses_calc 0
     then q <- truediv amount total_expenses_calc ;; Ok (q * 100)
     else Ok 0) ;;
  Ok [category; money amount; format_f false 1 percentage ++ "%"].

Definition category_data (category_summary : dict Q)
  : outcome (list (list string)) :=
  let total_expenses_calc := sum (values category_summary) in
  rows <- map_each (category_row total_expenses_calc) category_summary ;;
  Ok (["Category"; "Amount"; "Percentage"] :: rows).

Definition transaction_row (t : txn) : list string :=
  let amount_str := money (get_or (txn_amount t) 0) in
  [ get_or (txn_date t) "";
    take 30 (get_or (txn_description t) "");
    get_or (txn_category t) "";
    get_or (txn_type t) "";
    amount_str ].

Definition table_data (transactions : list txn) : list (list string) :=
  ["Date"; "Description"; "Category"; "Type"; "Amount"]
    :: map transaction_row transactions.

(** The list [elements] at the point where [pdf.build] is called. The
    totals are numbers, or [None] when the caller passes that. *)
Definition report_elements (rl : env) (transactions : list txn)
  (total_income total_expenses balance : option Q)
  : outcome (list flowable) :=
  summary <- summary_data total_income total_expenses balance ;;
  let elements :=
    [ Paragraph ("Financial Report - " ++ now_B_d_Y rl) "Subtitle";
      Spacer 1 12;
      Paragraph "Financial Summary" "SectionHeading";
      Table summary;
      Spacer 1 20 ] in
  category_summary <- get_category_summary transactions ;;
  elements <-
    match category_summary with
    | [] => Ok elements
    | _ =>
        rows <- category_data category_summary ;;
        Ok (elements
              ++ [ Paragraph "Expense Breakdown by Category" "SectionHeading";
                   Table rows;
                   Spacer 1 20 ])%list
    end ;;
  let elements :=
    (elements ++ [Paragraph "Transaction Details" "SectionHeading"])%list in
  let elements :=
    match transactions with
    | [] => (elements ++ [Paragraph "No transactions available." "NoData"])%list
    | _ => (elements ++ [Table (table_data transactions)])%list
    end in
  Ok (elements
        ++ [ Spacer 1 30;
             Paragraph "Generated by BudgetBuddy Financial Tracker" "Footer";
             Paragraph (now_Y_m_d_H_M_S rl) "Footer" ])%list.

(** The body of the [try] block of [build_transaction_pdf]. *)
Definition build_report (rl : env) (transactions : list txn)
  (filename : string) (total_income total_expenses balance : option Q)
  : outcome bool :=
  _ <- SimpleDocTemplate rl filename ;;
  elements <-
    report_elements rl transactions total_income total_expenses balance ;;
  _ <- build rl filename elements ;;
  Ok true.

(** [build_transaction_pdf(transactions, filename, total_income,
    total_expenses, balance)]: the value returned and the lines printed. *)
Definition build_transaction_pdf (rl : env) (transactions : list txn)
  (filename : string) (total_income total_expenses balance : option Q)
  : outcome bool * list string :=
  try_except
    (build_report rl transactions filename total_income total_expenses balance)
    (fun e => (Ok false, ["Error building PDF: " ++ str_exn e])).

End helpers.

(** ** The health score in binary floating point

    The interpreter evaluates [calculate_financial_health] on IEEE 754
    binary64 numbers. This second embedding follows it bit for bit, with the
    operations of [SpecFloat], and serves to evaluate the function at
    concrete totals. *)

Module Binary64.

Definition prec : Z := 53.
Definition emax : Z := 1024.

(** [float(z)] for an integer [z]. *)
Definition of_Z (z : Z) : spec_float := binary_normalize prec emax z 0 false.

(** [x == 0]. *)
Definition is_zero (x : spec_float) : bool :=
  match x with
  | S754_zero _ => true
  | _ => false
  end.

(** [x or 0]. *)
Definition or0 (x : option spec_float) : spec_float :=
  match x with
  | None => of_Z 0
  | Some f => if is_zero f then of_Z 0 else f
  end.

(** [a / b]. *)
Definition truediv (a b : spec_float) : outcome spec_float :=
  if is_zero b then Raise ZeroDivisionError else Ok (SFdiv prec emax a b).

(** [int(x)]: truncation toward zero; infinities and NaN raise. *)
Definition int (x : spec_float) : outcome Z :=
  match x with
  | S754_zero _ => Ok 0%Z
  | S754_finite s m e =>
      let magnitude := Z.shiftl (Zpos m) e in
      Ok (if s then (- magnitude)%Z else magnitude)
  | S754_infinity _ =>
      Raise (OverflowError "cannot convert float infinity to integer")
  | S754_nan => Raise (ValueError "cannot convert float NaN to integer")
  end.

Definition calculate_financial_health
  (total_income total_expenses : option spec_float) : outcome (option Z) :=
  let total_expenses := or0 total_expenses in
  let total_income := or0 total_income in
  if is_zero total_income && is_zero total_expenses then Ok None
  else if is_zero total_income then Ok (Some 0%Z)
  else
    expense_ratio <- truediv total_expenses total_income ;;
    scaled <- int (SFmul prec emax expense_ratio (of_Z 100)) ;;
    let health_score := Z.max 0 (100 - scaled) in
    Ok (Some health_score).

End Binary64.

(** ** app.py *)

Module app.

(** The body of the response of [/dashboard/data]. *)
Record dashboard_json : Type := mk_json {
  json_total_income : Q;
  json_total_expenses : Q;
  json_categories : list string;
  json_percentages : list Q;
  json_dates : list string;
  json_income : list Q;
  json_expenses : list Q
}.

(** The percentage of income spent on each category. *)
Definition category_percentages (categories_data : list (string * Q))
  (total_income : Q) : outcome (dict Q) :=
  if gt total_income 0
  then
    for_each
      (fun category_percentages item =>
         let category := fst item in
         let total_spent := snd item in
         q <- truediv total_spent total_income ;;
         let percentage := q * 100 in
         Ok (set category_percentages category percentage))
      categories_data []
  else Ok [].

(** One entry of [trends]: the inner dictionary with its two keys. *)
Record day_totals : Type := mk_day {
  day_income : Q;
  day_expenses : Q
}.

Definition add_to_trends (trends : dict day_totals) (r : row)
  : dict day_totals :=
  let date_str := row_date r in
  let amount := row_amount r in
  let txn_type := row_type r in
  let (trends, day) := default_getitem (mk_day 0 0) trends date_str in
  if String.eqb txn_type "income"
  then set trends date_str (mk_day (day_income day + amount) (day_expenses day))
  else set trends date_str (mk_day (day_income day) (day_expenses day + amount)).

(** The trend data: the sorted dates with the two parallel series. *)
Definition trend_series (rows : list row)
  : list string * list Q * list Q :=
  let trends := fold_left add_to_trends rows [] in
  let sorted_dates := sorted String.leb (keys trends) in
  let income_trend :=
    map (fun date => day_income (snd (default_getitem (mk_day 0 0) trends date)))
      sorted_dates in
  let expenses_trend :=
    map (fun date => day_expenses (snd (default_getitem (mk_day 0 0) trends date)))
      sorted_dates in
  (sorted_dates, income_trend, expenses_trend).

(** [dashboard_data()] for the logged-in user [user_id]. *)
Definition dashboard_data (db : table) (user_id : Z) : outcome dashboard_json :=
  let rows :=
    Sqlite.order_by_date_asc
      (Sqlite.select_where
         (fun r => Sqlite.equals (Sqlite.Integer (row_user_id r))
                     (Sqlite.Integer user_id))
         db) in
  let total_income :=
    or0 (Sqlite.SUM
           (Sqlite.select_where (helpers.of_user_and_type user_id "income") db)) in
  let total_expenses :=
    or0 (Sqlite.SUM
           (Sqlite.select_where (helpers.of_user_and_type user_id "expenses") db)) in
  let categories_data :=
    Sqlite.group_by_category_sum
      (Sqlite.select_where (helpers.of_user_and_type user_id "expenses") db) in
  category_percentages <- category_percentages categories_data total_income ;;
  let categories := keys category_percentages in
  let percentages := values category_percentages in
  let '(sorted_dates, income_trend, expenses_trend) := trend_series rows in
  Ok (mk_json total_income total_expenses categories percentages
        sorted_dates income_trend expenses_trend).

End app.

(** ** The vocabulary of the specification *)

Module Spec.

(** The sum of a sequence of amounts. *)
Fixpoint total (l : list Q) : Q :=
  match l with
  | [] => 0
  | a :: l' => a + total l'
  end.

(** The rows of user [user_id] with type [type]. *)
Definition of_type (user_id : Z) (type : string) (db : table) : table :=
  filter (fun r => Z.eqb (row_user_id r) user_id && String.eqb (row_type r) type)
    db.

(** The health score as the specification words it:
    [max(0, 100 - round(100 * expenses / income))]. *)
Definition health_score (total_income total_expenses : Q) : option Z :=
  if Qeq_bool total_income 0 && Qeq_bool total_expenses 0 then None
  else if Qeq_bool total_income 0 then Some 0%Z
  else Some (Z.max 0 (100 - round (100 * (total_expenses / total_income)))).

(** The calendar-date portion of a stored date: its prefix before the first
    space. *)
Fixpoint before_space (s : string) : string :=
  match s with
  | EmptyString => EmptyString
  | String c r =>
      if Ascii.eqb c " " then EmptyString else String c (before_space r)
  end.

Fixpoint has_space (s : string) : bool :=
  match s with
  | EmptyString => false
  | String c r => Ascii.eqb c " " || has_space r
  end.

(** What the category summarizer reads from an entry: whether its type is
    the tag looked for, its category and its amount. *)
Definition has_type (tag : string) (t : txn) : bool :=
  match txn_type t with
  | Some ty => String.eqb ty tag
  | None => false
  end.

Definition category_of (t : txn) : string :=
  get_or (txn_category t) "Uncategorized".

Definition amount_of (t : txn) : Q := get_or (txn_amount t) 0.

(** The amounts of the entries of type [tag] and category [c]. *)
Definition category_amounts (tag c : string) (l : list txn) : list Q :=
  map amount_of
    (filter (fun t => has_type tag t && String.eqb (category_of t) c) l).

(** Selections of rows: of one user, of one category, of one date and
    type; and the amounts of a selection. *)
Definition of_user (user_id : Z) (db : table) : table :=
  filter (fun r => Z.eqb (row_user_id r) user_id) db.




(** The distinct elements of a list in order of first occurrence. *)
Definition first_seen (ks : list string) : list string :=
  fold_left
    (fun seen k => if existsb (String.eqb k) seen then seen else seen ++ [k])%list
    ks [].

End Spec.

(** ** The accumulating loops

    The state of the loops of [get_category_summary], of the [GROUP BY]
    query and of the trend series, named for the proofs: one step of a
    running total per key, and the entry of [trends] for a date with one
    step of its update. *)

Module Loops.

Definition add_amount (d : dict Q) (k : string) (a : Q) : dict Q :=
  set d k (get_or (get d k) 0 + a).



End Loops.

(** * The rest of the application

    What follows embeds the routes of [app.py] that read or change the two
    tables. A Python string is a Rocq string, one character per element
    (characters below 256), so that [len], slices and comparisons agree.
    A route under [@login_required] is taken from the point where
    flask_login has admitted the request: it receives the logged-in user.
    Failures of the database connection itself are not modelled. *)

(** ** Strings and forms *)

Module PyStr.

(** [c.isspace()] for a character below 256: tab to carriage return, the
    separators 28 to 31, the space, and the characters 133 and 160. *)
Definition isspace (c : ascii) : bool :=
  let n := N_of_ascii c in
  ((9 <=? n)%N && (n <=? 13)%N)
  || ((28 <=? n)%N && (n <=? 32)%N)
  || (n =? 133)%N || (n =? 160)%N.

Fixpoint lstrip (s : string) : string :=
  match s with
  | EmptyString => EmptyString
  | String c r => if isspace c then lstrip r else s
  end.

Fixpoint rstrip (s : string) : string :=
  match s with
  | EmptyString => EmptyString
  | String c r =>
      match rstrip r with
      | EmptyString => if isspace c then EmptyString else String c EmptyString
      | r' => String c r'
      end
  end.

(** [s.strip()]. *)
Definition strip (s : string) : string := rstrip (lstrip s).

(** [not s] for [s] a string or [None]. *)
Definition falsy (s : option string) : bool :=
  match s with
  | None => true
  | Some s => String.eqb s ""
  end.

(** [a != b] for values that are strings or [None]. *)
Definition differ (a b : option string) : bool :=
  match a, b with
  | None, None => false
  | Some x, Some y => negb (String.eqb x y)
  | _, _ => true
  end.

End PyStr.

(** ** Flask *)

Module flask.

(** What a view returns. *)
Inductive response : Type :=
| render_template (template : string)
| redirect (endpoint : string)
| send_file (path : string) (download_name : string).

(** The messages passed to [flash], each with its category, in order. *)
Definition flashes : Type := list (string * string).

(** A request ends with a value, or with an exception no handler of the
    view catches. *)
Inductive result (A : Type) : Type :=
| Done (a : A)
| Uncaught (exception : string) (message : string).

Arguments Done {A} a.
Arguments Uncaught {A} exception message.

End flask.

Import flask.

(** ** Werkzeug

    The two functions of [werkzeug.security]. Hashing draws a random salt;
    the salt drawn is an argument here. *)

Record werkzeug : Type := mk_werkzeug {
  generate_password_hash : string -> string -> string;
  check_password_hash : string -> string -> bool
}.

(** ** The database *)

Module Db.

(** A row of table [users]. *)
Record user : Type := mk_user {
  user_id : Z;
  user_username : string;
  user_hash : string
}.

(** The two tables, rows in the order of their row ids, and the largest id
    the [AUTOINCREMENT] key of [users] has given out. *)
Record state : Type := mk_state {
  users : list user;
  users_seq : Z;
  transactions : table
}.

(** The truth of a [WHERE] condition. *)
Definition is_true (c : option bool) : bool :=
  match c with
  | Some true => true
  | _ => false
  end.

(** [SELECT ... FROM users WHERE c]. *)
Definition users_where (c : user -> option bool) (us : list user) : list user :=
  filter (fun u => is_true (c u)) us.

(** [cursor.fetchone()]. *)
Definition fetchone {A} (rows : list A) : option A := hd_error rows.

(** [DELETE FROM ... WHERE c]. *)
Definition delete_where {A} (c : A -> option bool) (rows : list A) : list A :=
  filter (fun r => negb (is_true (c r))) rows.

(** [UPDATE users SET hash = h WHERE c]. *)
Definition update_hash (c : user -> option bool) (h : string) (us : list user)
  : list user :=
  map (fun u => if is_true (c u) then mk_user (user_id u) (user_username u) h
                else u)
    us.

(** The id an [INTEGER PRIMARY KEY AUTOINCREMENT] column gives a new row:
    one more than the largest id that has ever been in the table. *)
Definition next_id (seq : Z) (us : list user) : Z :=
  Z.max seq (fold_right Z.max 0%Z (map user_id us)) + 1.

(** [INSERT INTO users (username, hash) VALUES (?, ?)]. *)
Definition insert_user (username hash : string) (db : state) : state :=
  let i := next_id (users_seq db) (users db) in
  mk_state (users db ++ [mk_user i username hash])%list i (transactions db).

(** The conditions of the queries. *)
Definition username_is (name : string) (u : user) : option bool :=
  Sqlite.equals (Sqlite.Text (user_username u)) (Sqlite.Text name).

Definition user_id_is (i : Z) (u : user) : option bool :=
  Sqlite.equals (Sqlite.Integer (user_id u)) (Sqlite.Integer i).

Definition row_id_is (i : Z) (r : row) : option bool :=
  Sqlite.equals (Sqlite.Integer (row_id r)) (Sqlite.Integer i).

Definition row_user_is (i : Z) (r : row) : option bool :=
  Sqlite.equals (Sqlite.Integer (row_user_id r)) (Sqlite.Integer i).

(** [AVG(amount)], [NULL] over no rows, and [ROUND(x, 2)], which rounds the
    third decimal half away from zero and keeps [NULL]. *)
Definition AVG (rows : table) : option Q :=
  match rows with
  | [] => None
  | _ => Some (Py.sum (map row_amount rows) / inject_Z (Z.of_nat (List.length rows)))
  end.

Definition ROUND2 (x : option Q) : option Q :=
  match x with
  | None => None
  | Some q =>
      let cents := Qfloor (Qabs q * 100 + (1 # 2)) in
      Some (if Qlt_le_dec q 0 then inject_Z (- cents) / 100
            else inject_Z cents / 100)
  end.

End Db.

(** ** app.py: the routes *)

Module routes.

(** [current_user], once logged in. *)
Record User : Type := mk_User {
  id : Z;
  username : string
}.

(** [User.get(user_id)], which is also [load_user]. *)
Definition User_get (us : list Db.user) (user_id : Z) : option User :=
  match Db.fetchone (Db.users_where (Db.user_id_is user_id) us) with
  | None => None
  | Some user => Some (mk_User (Db.user_id user) (Db.user_username user))
  end.

(** [login()]: the user logged in by [login_user], if any, with the
    messages flashed and the response. [authenticated] is
    [current_user.is_authenticated]. *)
Definition login (w : werkzeug) (us : list Db.user) (authenticated : bool)
  (method : string) (form : dict string)
  : result (option User * flashes * response) :=
  if authenticated then Done (None, [], redirect "dashboard")
  else if String.eqb method "POST" then
    match get form "username" with
    | None =>
        Uncaught "AttributeError"
          "'NoneType' object has no attribute 'strip'"
    | Some raw =>
        let username := PyStr.strip raw in
        let password := get form "password" in
        if String.eqb username "" || PyStr.falsy password
        then Done (None, [("Must provide username and password", "danger")],
                   render_template "login.html")
        else
          let user_data :=
            Db.fetchone (Db.users_where (Db.username_is username) us) in
          match user_data with
          | Some user =>
              if check_password_hash w (Db.user_hash user) (get_or password "")
              then
                let user_obj :=
                  mk_User (Db.user_id user) (Db.user_username user) in
                Done (Some user_obj, [("Login successful!", "success")],
                      redirect "dashboard")
              else Done (None, [("Invalid username or password", "danger")],
                         render_template "login.html")
          | None => Done (None, [("Invalid username or password", "danger")],
                          render_template "login.html")
          end
    end
  else Done (None, [], render_template "login.html").

(** [register()]: the database after the request, the messages flashed and
    the response. *)
Definition register (w : werkzeug) (salt : string) (db : Db.state)
  (authenticated : bool) (method : string) (form : dict string)
  : Db.state * flashes * response :=
  if authenticated then (db, [], redirect "dashboard")
  else if String.eqb method "POST" then
    let username := PyStr.strip (get_or (get form "username") "") in
    let password := get form "password" in
    let confirmation := get form "confirmation" in
    if String.eqb username ""
    then (db, [("Must provide username", "danger")],
          render_template "register.html")
    else if PyStr.falsy password
    then (db, [("Must provide password", "danger")],
          render_template "register.html")
    else if PyStr.differ password confirmation
    then (db, [("Passwords do not match", "danger")],
          render_template "register.html")
    else if (String.length (get_or password "") <? 8)%nat
    then (db, [("Password must be at least 8 characters long", "danger")],
          render_template "register.html")
    else
      match Db.fetchone (Db.users_where (Db.username_is username) (Db.users db)) with
      | Some _ =>
          (db, [("Username already exists", "warning")],
           render_template "register.html")
      | None =>
          let hashed_pw :=
            generate_password_hash w salt (get_or password "") in
          (Db.insert_user username hashed_pw db,
           [("Registered successfully! You can now log in.", "success")],
           redirect "login")
      end
  else (db, [], render_template "register.html").

(** [dashboard()]: what the template receives. *)
Record dashboard_context : Type := mk_dashboard {
  ctx_total_income : Q;
  ctx_total_expenses : Q;
  ctx_balance : Q;
  ctx_transactions : list txn
}.

Definition dashboard (db : table) (current_user : User)
  : outcome dashboard_context :=
  let user_id := id current_user in
  let total_income :=
    or0 (Sqlite.SUM
           (Sqlite.select_where (helpers.of_user_and_type user_id "income") db)) in
  let total_expenses :=
    or0 (Sqlite.SUM
           (Sqlite.select_where (helpers.of_user_and_type user_id "expenses") db)) in
  let balance := total_income - total_expenses in
  let transactions :=
    firstn 5
      (Sqlite.order_by_date_desc
         (Sqlite.select_where (Db.row_user_is user_id) db)) in
  transactions <- helpers.format_transactions (map dict_of_row transactions) ;;
  Ok (mk_dashboard total_income total_expenses balance transactions).

(** [transactions()] for a [GET] request: the list the template receives. *)
Definition transactions_get (db : table) (current_user : User)
  : outcome (list txn) :=
  let user_id := id current_user in
  let transactions :=
    Sqlite.order_by_date_desc
      (Sqlite.select_where (Db.row_user_is user_id) db) in
  helpers.format_transactions (map dict_of_row transactions).

(** [delete_transaction(txn_id)]: the table after the request and the
    message flashed; the response is always a redirect to the list. *)
Definition delete_transaction (db : table) (current_user : User) (txn_id : Z)
  : table * flashes * response :=
  let row :=
    Db.fetchone (Sqlite.select_where (Db.row_id_is txn_id) db) in
  match row with
  | None => (db, [("Transaction not found.", "danger")], redirect "transactions")
  | Some r =>
      if negb (Z.eqb (row_user_id r) (id current_user))
      then (db, [("Unauthorized action.", "danger")], redirect "transactions")
      else (Db.delete_where (Db.row_id_is txn_id) db,
            [("Transaction deleted successfully.", "success")],
            redirect "transactions")
  end.

(** [analytics()]: what the template receives. *)
Record analytics_context : Type := mk_analytics {
  an_total_income : Q;
  an_total_expenses : Q;
  an_balance : Q;
  an_category_expenses : dict Q;
  an_avg_expense : Q
}.

Definition analytics (db : table) (current_user : User) : analytics_context :=
  let user_id := id current_user in
  let total_income :=
    or0 (Sqlite.SUM
           (Sqlite.select_where (helpers.of_user_and_type user_id "income") db)) in
  let total_expenses :=
    or0 (Sqlite.SUM
           (Sqlite.select_where (helpers.of_user_and_type user_id "expenses") db)) in
  let avg_expense :=
    or0 (Db.ROUND2
           (Db.AVG
              (Sqlite.select_where
                 (helpers.of_user_and_type user_id "expenses") db))) in
  let categories_data :=
    Sqlite.group_by_category_sum
      (Sqlite.select_where (helpers.of_user_and_type user_id "expenses") db) in
  let category_expenses := of_items categories_data in
  let balance := total_income - total_expenses in
  mk_analytics total_income total_expenses balance category_expenses
    avg_expense.

(** [change_password()]: the table [users] after the request. *)
Definition change_password (w : werkzeug) (salt : string) (us : list Db.user)
  (current_user : User) (method : string) (form : dict string)
  : result (list Db.user * flashes * response) :=
  if String.eqb method "POST" then
    let old_password := get form "old_password" in
    let new_password := get form "new_password" in
    let confirm_new_password := get form "confirm_new_password" in
    let submitted_username := get form "username" in
    if PyStr.falsy old_password || PyStr.falsy new_password
       || PyStr.falsy confirm_new_password
    then Done (us, [("Please fill in all fields.", "danger")],
               redirect "profile")
    else if PyStr.differ new_password confirm_new_password
    then Done (us, [("New passwords do not match.", "danger")],
               redirect "profile")
    else if PyStr.differ submitted_username (Some (username current_user))
    then Done (us, [("You cannot change another user's password.", "danger")],
               redirect "profile")
    else
      match Db.fetchone (Db.users_where (Db.user_id_is (id current_user)) us) with
      | None =>
          Uncaught "TypeError" "'NoneType' object is not subscriptable"
      | Some user =>
          if negb (check_password_hash w (Db.user_hash user)
                     (get_or old_password ""))
          then Done (us, [("Incorrect old password.", "danger")],
                     redirect "profile")
          else
            let hashed_new_password :=
              generate_password_hash w salt (get_or new_password "") in
            Done (Db.update_hash (Db.user_id_is (id current_user))
                    hashed_new_password us,
                  [("Password updated successfully!", "success")],
                  redirect "profile")
      end
  else Done (us, [], redirect "profile").

(** [delete_account()]: the database after the request; the session is
    logged out. *)
Definition delete_account (db : Db.state) (current_user : User)
  : Db.state * flashes * response :=
  let transactions :=
    Db.delete_where (Db.row_user_is (id current_user)) (Db.transactions db) in
  let users :=
    Db.delete_where (Db.user_id_is (id current_user)) (Db.users db) in
  (Db.mk_state users (Db.users_seq db) transactions,
   [("Your account has been deleted successfully.", "success")],
   redirect "index").

(** [download_report()]: the response, with the lines the builder printed.
    [temp_name] is the name of the temporary file. *)
Definition download_report (rl : env) (db : table) (current_user : User)
  (temp_name : string) : outcome response * list string :=
  let user_id := id current_user in
  let transactions := helpers.get_transaction_data db user_id in
  match helpers.format_transactions transactions with
  | Raise e => (Raise e, [])
  | Ok transactions =>
      let '(total_income, total_expenses, balance) :=
        helpers.get_transaction_summary db user_id in
      match
        helpers.build_transaction_pdf rl transactions temp_name
          (Some total_income) (Some total_expenses) (Some balance)
      with
      | (Raise e, printed) => (Raise e, printed)
      | (Ok _, printed) =>
          (Ok (send_file temp_name
                 (username current_user ++ "_financial_report.pdf")),
           printed)
      end
  end.

End routes.

(** * Properties *)

(** ** Arithmetic of the runtime model *)

Lemma Qeq_bool_false (x y : Q) : ~ x == y -> Qeq_bool x y = false.
Proof.
  intros H. destruct (Qeq_bool x y) eqn:E; [|reflexivity].
  apply Qeq_bool_eq in E. contradiction.
Qed.


Lemma truediv_ok (a b : Q) : ~ b == 0 -> truediv a b = Ok (a / b).
Proof. intros H. unfold truediv. now rewrite (Qeq_bool_false H). Qed.

Lemma gt_spec (a b : Q) : gt a b = true <-> b < a.
Proof.
  unfold gt. rewrite negb_true_iff. split; intros H.
  - apply Qnot_le_lt. intros L. apply Qle_bool_iff in L. congruence.
  - destruct (Qle_bool a b) eqn:E; [|reflexivity].
    apply Qle_bool_iff in E. exfalso. now apply (Qlt_not_le b a).
Qed.






(** ** Dictionaries *)

Section DictFacts.
Variable V : Type.
Implicit Types (d : dict V) (k : string) (v : V).

Lemma get_set_same d k v : get (set d k v) k = Some v.
Proof.
  induction d as [|[k' v'] d IH]; simpl.
  - now rewrite String.eqb_refl.
  - destruct (String.eqb k k') eqn:E; simpl; now rewrite E.
Qed.

Lemma get_set_other d k k' v : k <> k' -> get (set d k v) k' = get d k'.
Proof.
  intros N. induction d as [|[k0 v0] d IH]; simpl.
  - apply String.eqb_neq in N. rewrite String.eqb_sym in N. now rewrite N.
  - destruct (String.eqb_spec k k0) as [->|N0]; simpl.
    + assert (E : String.eqb k' k0 = false).
      { apply String.eqb_neq. intros ->. now apply N. }
      now rewrite E.
    + now rewrite IH.
Qed.

Lemma set_set d k v w : set (set d k v) k w = set d k w.
Proof.
  induction d as [|[k' v'] d IH]; simpl.
  - now rewrite String.eqb_refl.
  - destruct (String.eqb k k') eqn:E; simpl; rewrite E; [reflexivity|].
    now rewrite IH.
Qed.

Lemma get_none_keys d k : get d k = None <-> ~ In k (keys d).
Proof.
  induction d as [|[k' v'] d IH]; simpl.
  - tauto.
  - destruct (String.eqb_spec k k') as [->|N].
    + split; [discriminate|]. intros H. exfalso. apply H. now left.
    + rewrite IH. split; intros H; [intros [E|I]|]; try tauto.
      now symmetry in E.
Qed.

Lemma get_some_keys d k v : get d k = Some v -> In k (keys d).
Proof.
  intros H. destruct (in_dec string_dec k (keys d)) as [I|N]; [exact I|].
  apply get_none_keys in N. congruence.
Qed.

Lemma in_get d k v : NoDup (keys d) -> In (k, v) d -> get d k = Some v.
Proof.
  induction d as [|[k' v'] d IH]; simpl; [tauto|].
  intros ND [E|I].
  - injection E as -> ->. now rewrite String.eqb_refl.
  - apply NoDup_cons_iff in ND. destruct ND as [Nk ND].
    destruct (String.eqb_spec k k') as [->|N]; [|now apply IH].
    exfalso. apply Nk. change (In (fst (k', v)) (map fst d)).
    now apply in_map.
Qed.

Lemma set_new d k v : get d k = None -> set d k v = (d ++ [(k, v)])%list.
Proof.
  induction d as [|[k' v'] d IH]; simpl; [reflexivity|].
  destruct (String.eqb k k'); [discriminate|].
  intros H. now rewrite IH.
Qed.

Lemma keys_set_old d k v w : get d k = Some w -> keys (set d k v) = keys d.
Proof.
  unfold keys. induction d as [|[k' v'] d IH]; simpl; [discriminate|].
  destruct (String.eqb k k'); simpl; [reflexivity|].
  intros H. now rewrite IH.
Qed.

Lemma keys_set d k v :
  keys (set d k v)
  = match get d k with
    | Some _ => keys d
    | None => (keys d ++ [k])%list
    end.
Proof.
  destruct (get d k) as [w|] eqn:E.
  - now apply keys_set_old with w.
  - rewrite set_new by exact E. unfold keys. now rewrite map_app.
Qed.

Lemma NoDup_snoc (l : list string) (k : string) :
  NoDup l -> ~ In k l -> NoDup (l ++ [k]).
Proof.
  intros ND N. apply NoDup_rev in ND.
  rewrite <- (rev_involutive (l ++ [k])). apply NoDup_rev.
  rewrite rev_app_distr. simpl. constructor; [|exact ND].
  now rewrite <- in_rev.
Qed.

Lemma NoDup_keys_set d k v : NoDup (keys d) -> NoDup (keys (set d k v)).
Proof.
  intros ND. rewrite keys_set. destruct (get d k) eqn:E; [exact ND|].
  apply NoDup_snoc; [exact ND|]. now apply get_none_keys.
Qed.


(** [dict(items)] is [items] itself when no key repeats. *)
Lemma of_items_from d (items : list (string * V)) :
  NoDup (keys d ++ map fst items) ->
  fold_left (fun d kv => set d (fst kv) (snd kv)) items d = (d ++ items)%list.
Proof.
  revert d. induction items as [|[k v] items IH]; intros d ND; simpl.
  - now rewrite app_nil_r.
  - assert (N : get d k = None).
    { apply get_none_keys. intros I.
      apply NoDup_remove_2 in ND. apply ND. apply in_or_app. now left. }
    rewrite set_new by exact N. rewrite IH.
    + now rewrite <- app_assoc.
    + unfold keys in *. rewrite map_app. simpl. rewrite <- app_assoc. exact ND.
Qed.

Lemma of_items_nodup (items : list (string * V)) :
  NoDup (map fst items) -> of_items items = items.
Proof. intros ND. unfold of_items. now rewrite of_items_from. Qed.

End DictFacts.

Lemma for_each_total {A S} (body : S -> A -> outcome S) (step : S -> A -> S)
  (l : list A) (acc : S) :
  (forall s a, body s a = Ok (step s a)) ->
  for_each body l acc = Ok (fold_left step l acc).
Proof.
  intros H. revert acc. induction l as [|x l IH]; intros acc; simpl.
  - reflexivity.
  - now rewrite H.
Qed.

(** ** Sorting *)

Section Sorting.
Variables (A : Type) (before : A -> A -> bool).

Lemma insert_perm (x : A) (l : list A) : Permutation (insert before x l) (x :: l).
Proof.
  induction l as [|y l IH]; simpl; [reflexivity|].
  destruct (before x y); [reflexivity|].
  rewrite IH. apply perm_swap.
Qed.

Lemma sorted_perm (l : list A) : Permutation (sorted before l) l.
Proof.
  induction l as [|x l IH]; simpl; [reflexivity|].
  unfold sorted in IH. rewrite insert_perm. now constructor.
Qed.

Hypothesis before_total : forall x y, before x y = false -> before y x = true.

Lemma insert_HdRel (x y : A) (l : list A) :
  before y x = true ->
  HdRel (fun a b => before a b = true) y l ->
  HdRel (fun a b => before a b = true) y (insert before x l).
Proof.
  intros Hyx H. destruct l as [|z l]; simpl.
  - now constructor.
  - destruct (before x z); constructor; [exact Hyx|].
    now inversion H.
Qed.

Lemma insert_Sorted (x : A) (l : list A) :
  Sorted (fun a b => before a b = true) l ->
  Sorted (fun a b => before a b = true) (insert before x l).
Proof.
  induction 1 as [|y l S IH H]; simpl.
  - repeat constructor.
  - destruct (before x y) eqn:E.
    + constructor; [now constructor|now constructor].
    + constructor; [exact IH|].
      apply insert_HdRel; [now apply before_total|exact H].
Qed.

Lemma sorted_Sorted (l : list A) :
  Sorted (fun a b => before a b = true) (sorted before l).
Proof.
  induction l as [|x l IH]; simpl; [constructor|].
  now apply insert_Sorted.
Qed.

End Sorting.

(** The order on strings. *)

Lemma ascii_compare_lt_trans (a b c : ascii) :
  Ascii.compare a b = Lt -> Ascii.compare b c = Lt -> Ascii.compare a c = Lt.
Proof.
  unfold Ascii.compare. rewrite !N.compare_lt_iff. apply N.lt_trans.
Qed.

Lemma string_compare_lt_trans (a b c : string) :
  String.compare a b = Lt -> String.compare b c = Lt -> String.compare a c = Lt.
Proof.
  revert b c. induction a as [|x a IH]; intros [|y b] [|z c]; simpl;
    try discriminate; try reflexivity.
  destruct (Ascii.compare x y) eqn:Exy; try discriminate.
  - apply Ascii.compare_eq_iff in Exy. subst y.
    destruct (Ascii.compare x z) eqn:Exz; try discriminate; [|reflexivity].
    apply IH.
  - destruct (Ascii.compare y z) eqn:Eyz; try discriminate.
    + apply Ascii.compare_eq_iff in Eyz. subst z. now rewrite Exy.
    + now rewrite (ascii_compare_lt_trans _ _ _ Exy Eyz).
Qed.


Lemma string_leb_trans (a b c : string) :
  String.leb a b = true -> String.leb b c = true -> String.leb a c = true.
Proof.
  unfold String.leb. intros H1 H2.
  destruct (String.compare a b) eqn:Eab; try discriminate.
  - apply String.compare_eq_iff in Eab. now subst b.
  - destruct (String.compare b c) eqn:Ebc; try discriminate.
    + apply String.compare_eq_iff in Ebc. subst c. now rewrite Eab.
    + now rewrite (string_compare_lt_trans _ _ _ Eab Ebc).
Qed.

Lemma string_leb_total (a b : string) :
  String.leb a b = false -> String.leb b a = true.
Proof.
  intros H. destruct (String.leb_total a b) as [E|E]; [congruence|exact E].
Qed.


(** ** Running totals per key *)


Section RunningTotals.
Variables (X : Type) (key : X -> string) (amt : X -> Q).

Let step (d : dict Q) (x : X) : dict Q := Loops.add_amount d (key x) (amt x).

Lemma running_keys_nodup (l : list X) (d : dict Q) :
  NoDup (keys d) -> NoDup (keys (fold_left step l d)).
Proof.
  revert d. induction l as [|x l IH]; intros d ND; simpl; [exact ND|].
  apply IH. now apply NoDup_keys_set.
Qed.


Lemma running_get (l : list X) (d : dict Q) (c : string) :
  get_or (get (fold_left step l d) c) 0
  == get_or (get d c) 0
     + Spec.total (map amt (filter (fun x => String.eqb (key x) c) l)).
Proof.
  revert d. induction l as [|x l IH]; intros d; simpl.
  - ring.
  - rewrite IH. unfold step, Loops.add_amount.
    destruct (String.eqb_spec (key x) c) as [E|N]; simpl.
    + rewrite E, get_set_same. simpl. ring.
    + rewrite get_set_other by exact N. ring.
Qed.


End RunningTotals.

Lemma fold_left_filter {X S} (p : X -> bool) (step : S -> X -> S)
  (l : list X) (acc : S) :
  fold_left (fun s x => if p x then step s x else s) l acc
  = fold_left step (filter p l) acc.
Proof.
  revert acc. induction l as [|x l IH]; intros acc; simpl; [reflexivity|].
  destruct (p x); simpl; apply IH.
Qed.



(** ** The health score *)




(** The values of C1 in binary floating point: the five points of the
    specification and the pair (3, 2) give what the exact embedding gives.
    The two embeddings part where a quotient that is a whole number of
    hundredths is not representable: [29 / 100 * 100] evaluates to
    28.999999999999996, which truncates to 28, so the binary score of
    (100, 29) is 72 where exact arithmetic gives 71. *)
Lemma calculate_financial_health_binary64 :
  let health i e :=
    Binary64.calculate_financial_health (Some (Binary64.of_Z i))
      (Some (Binary64.of_Z e)) in
  health 0%Z 0%Z = Ok None /\
  health 0%Z 5%Z = Ok (Some 0%Z) /\
  health 100%Z 0%Z = Ok (Some 100%Z) /\
  health 100%Z 50%Z = Ok (Some 50%Z) /\
  health 100%Z 150%Z = Ok (Some 0%Z) /\
  health 3%Z 2%Z = Ok (Some 34%Z) /\
  health 100%Z 29%Z = Ok (Some 72%Z) /\
  helpers.calculate_financial_health (Some 100) (Some 29) = Ok (Some 71%Z).
Proof. vm_compute. repeat split. Qed.


(** ** Queries *)

Lemma of_user_and_type_true (user_id : Z) (type : string) (r : row) :
  match helpers.of_user_and_type user_id type r with
  | Some true => true
  | _ => false
  end
  = (Z.eqb (row_user_id r) user_id && String.eqb (row_type r) type)%bool.
Proof.
  unfold helpers.of_user_and_type. simpl.
  now destruct (Z.eqb (row_user_id r) user_id), (String.eqb (row_type r) type).
Qed.

Lemma select_of_user_and_type (user_id : Z) (type : string) (db : table) :
  Sqlite.select_where (helpers.of_user_and_type user_id type) db
  = Spec.of_type user_id type db.
Proof.
  unfold Sqlite.select_where, Spec.of_type.
  apply filter_ext. intros r. apply of_user_and_type_true.
Qed.




(** The month filter of [get_last_month_expenses] holds for no row: the left
    operand is text or [NULL], the right one an integer. *)
Lemma month_filter_never_true (strftime : string -> option string)
  (last_month : Z) (c : option bool) (date : string) :
  Sqlite.and3 c
    (Sqlite.equals
       match strftime date with
       | Some m => Sqlite.Text m
       | None => Sqlite.Null
       end
       (Sqlite.Integer last_month))
  <> Some true.
Proof.
  destruct (strftime date); simpl; destruct c as [[|]|]; discriminate.
Qed.

Lemma filter_none {A} (p : A -> bool) (l : list A) :
  (forall x, p x = false) -> filter p l = [].
Proof.
  intros H. induction l as [|x l IH]; simpl; [reflexivity|].
  now rewrite H.
Qed.

(** C10. Whatever the user, the table, the month read from the clock and the
    text [strftime] returns, [get_last_month_expenses] returns [0]: no row
    passes the month comparison, the sum is [NULL], and the fallback gives
    [0]. A user with an expense dated in the month asked for still gets
    [0]. *)
Theorem get_last_month_expenses_zero (strftime : string -> option string)
  (last_month : Z) (db : table) (user_id : Z) :
  helpers.get_last_month_expenses strftime last_month db user_id = 0 /\
  helpers.get_last_month_expenses Sqlite.strftime_m 5
    [mk_row 1 user_id "rent" "Home" "expenses" 900 "2024-05-03"] user_id = 0.
Proof.
  assert (G : forall f m t u, helpers.get_last_month_expenses f m t u = 0).
  { intros f m t u. unfold helpers.get_last_month_expenses, Sqlite.select_where.
    rewrite filter_none; [reflexivity|].
    intros r.
    generalize (@month_filter_never_true f m
                  (helpers.of_user_and_type u "expenses" r) (row_date r)).
    match goal with |- ?c <> _ -> _ => destruct c as [[|]|] end;
      intros H; congruence. }
  split; apply G.
Qed.

(** ** The transaction formatter *)

Lemma split_first (s : string) :
  exists ws, split " " s = Spec.before_space s :: ws.
Proof.
  induction s as [|c r [ws IH]]; simpl.
  - now exists [].
  - destruct (Ascii.eqb c " ").
    + now eexists.
    + rewrite IH. now eexists.
Qed.

Lemma before_space_no_space (s : string) :
  Spec.has_space (Spec.before_space s) = false.
Proof.
  induction s as [|c r IH]; simpl; [reflexivity|].
  destruct (Ascii.eqb c " ") eqn:E; simpl; [reflexivity|].
  now rewrite E.
Qed.

Lemma before_space_unchanged (s : string) :
  Spec.has_space s = false -> Spec.before_space s = s.
Proof.
  induction s as [|c r IH]; simpl; [reflexivity|].
  destruct (Ascii.eqb c " "); simpl; [discriminate|].
  intros H. now rewrite IH.
Qed.

(** The kept part is a prefix that ends where the first space stands. *)
Lemma before_space_prefix (s : string) :
  exists rest,
    s = Spec.before_space s ++ rest /\
    (rest = "" \/ exists r, rest = String " " r).
Proof.
  induction s as [|c r (rest & E & H)]; simpl.
  - exists "". now split; [|left].
  - destruct (Ascii.eqb_spec c " ") as [->|N].
    + exists (String " " r). split; [reflexivity|right; now eexists].
    + exists rest. simpl. split; [now rewrite <- E|exact H].
Qed.

Lemma format_transaction_dated (t : txn) (d : string) :
  txn_date t = Some d ->
  helpers.format_transaction t = Ok (set_date t (Spec.before_space d)).
Proof.
  intros E. unfold helpers.format_transaction. rewrite E. simpl.
  destruct (split_first d) as [ws ->]. reflexivity.
Qed.

Lemma set_date_same (t : txn) (d : string) :
  txn_date t = Some d -> set_date t d = t.
Proof. destruct t. simpl. now intros ->. Qed.

Lemma format_transactions_dated (transactions formatted : list txn) :
  helpers.format_transactions transactions = Ok formatted ->
  Forall (fun t => txn_date t <> None) transactions.
Proof.
  unfold helpers.format_transactions. revert formatted.
  induction transactions as [|t l IH]; intros formatted; simpl.
  - constructor.
  - destruct (helpers.format_transaction t) as [t'|e] eqn:Et; [|discriminate].
    destruct (map_each helpers.format_transaction l) as [l'|e] eqn:El;
      [|discriminate].
    intros _. constructor; [|now apply IH with l'].
    unfold helpers.format_transaction in Et.
    destruct (txn_date t); [discriminate|discriminate Et].
Qed.

Lemma format_transactions_fixed (transactions : list txn) :
  Forall (fun t => txn_date t <> None) transactions ->
  exists formatted : list txn,
    helpers.format_transactions transactions = Ok formatted /\
    helpers.format_transactions formatted = Ok formatted /\
    Forall2
      (fun t t' =>
         exists d,
           txn_date t = Some d /\
           txn_date t' = Some (Spec.before_space d) /\
           txn_id t' = txn_id t /\
           txn_user_id t' = txn_user_id t /\
           txn_description t' = txn_description t /\
           txn_category t' = txn_category t /\
           txn_type t' = txn_type t /\
           txn_amount t' = txn_amount t /\
           (Spec.has_space d = false -> t' = t))
      transactions formatted.
Proof.
  unfold helpers.format_transactions.
  induction 1 as [|t l Ht _ (l' & E1 & E2 & F)].
  - exists []. repeat split. constructor.
  - destruct (txn_date t) as [d|] eqn:Ed; [|contradiction].
    exists (set_date t (Spec.before_space d) :: l'). simpl.
    rewrite (format_transaction_dated _ Ed), E1.
    assert (Ed' : txn_date (set_date t (Spec.before_space d))
                  = Some (Spec.before_space d)) by reflexivity.
    rewrite (format_transaction_dated _ Ed'), E2.
    split; [reflexivity|]. split.
    + rewrite (before_space_unchanged _ (before_space_no_space d)).
      reflexivity.
    + constructor; [|exact F].
      exists d. repeat (split; [first [exact Ed | reflexivity]|]). intros Hd.
      rewrite (before_space_unchanged _ Hd). now apply set_date_same.
Qed.

(** C7. Formatting twice is formatting once, for every transaction list
    (one with an entry that has no date raises [KeyError] either way). On a
    list whose entries all carry a date, formatting succeeds; each entry of
    the result is the entry of the input with its date replaced by the
    prefix before the first space and every other field as it was, and an
    entry whose date has no space is returned as it was. *)
Theorem format_transactions_idempotent (transactions : list txn) :
  (formatted <- helpers.format_transactions transactions ;;
   helpers.format_transactions formatted)
  = helpers.format_transactions transactions /\
  (Forall (fun t => txn_date t <> None) transactions ->
   exists formatted : list txn,
     helpers.format_transactions transactions = Ok formatted /\
     helpers.format_transactions formatted = Ok formatted /\
     Forall2
       (fun t t' =>
          exists d,
            txn_date t = Some d /\
            txn_date t' = Some (Spec.before_space d) /\
            txn_id t' = txn_id t /\
            txn_user_id t' = txn_user_id t /\
            txn_description t' = txn_description t /\
            txn_category t' = txn_category t /\
            txn_type t' = txn_type t /\
            txn_amount t' = txn_amount t /\
            (Spec.has_space d = false -> t' = t))
       transactions formatted).
Proof.
  split; [|apply format_transactions_fixed].
  destruct (helpers.format_transactions transactions) as [l'|e] eqn:E;
    [|reflexivity].
  destruct (format_transactions_fixed (format_transactions_dated _ E))
    as (l'' & E1 & E2 & _).
  rewrite E in E1. injection E1 as <-. exact E2.
Qed.

(** C7, witness: a stored timestamp and a plain date. *)
Lemma format_transactions_idempotent_witness :
  exists formatted : list txn,
    helpers.format_transactions
      [ mk_txn (Some 1%Z) (Some 7%Z) (Some "lunch") (Some "Food")
          (Some "expenses") (Some 12) (Some "2024-01-05 13:45:00");
        mk_txn (Some 2%Z) (Some 7%Z) (Some "pay") (Some "Job")
          (Some "income") (Some 90) (Some "2024-01-06") ]
    = Ok formatted /\
    helpers.format_transactions formatted = Ok formatted.
Proof.
  destruct (format_transactions_idempotent
              [ mk_txn (Some 1%Z) (Some 7%Z) (Some "lunch") (Some "Food")
                  (Some "expenses") (Some 12) (Some "2024-01-05 13:45:00");
                mk_txn (Some 2%Z) (Some 7%Z) (Some "pay") (Some "Job")
                  (Some "income") (Some 90) (Some "2024-01-06") ])
    as [_ H].
  destruct H as (l' & E1 & E2 & _).
  - repeat constructor; discriminate.
  - exists l'. now split.
Defined.

(** ** The category summarizer *)

Lemma add_to_category_total (d : dict Q) (t : txn) :
  helpers.add_to_category d t
  = Ok (if Spec.has_type "expense" t
        then Loops.add_amount d (Spec.category_of t) (Spec.amount_of t)
        else d).
Proof.
  unfold helpers.add_to_category, Spec.has_type, Loops.add_amount.
  fold (Spec.category_of t). fold (Spec.amount_of t).
  destruct (match txn_type t with Some ty => String.eqb ty "expense" | None => false end);
    [|reflexivity].
  unfold contains, getitem.
  destruct (get d (Spec.category_of t)) as [v|] eqn:E; simpl.
  - now rewrite E.
  - rewrite get_set_same. simpl. now rewrite set_set.
Qed.

Lemma get_category_summary_total (transactions : list txn) :
  helpers.get_category_summary transactions
  = Ok (of_items
          (sorted (fun x y => Qle_bool (snd y) (snd x))
             (fold_left
                (fun d t =>
                   if Spec.has_type "expense" t
                   then Loops.add_amount d (Spec.category_of t) (Spec.amount_of t)
                   else d)
                transactions []))).
Proof.
  unfold helpers.get_category_summary.
  rewrite (for_each_total _ _ _ _ add_to_category_total). reflexivity.
Qed.

Lemma fold_left_skip {A S} (step : S -> A -> S) (l : list A) (acc : S) :
  (forall s a, In a l -> step s a = s) -> fold_left step l acc = acc.
Proof.
  revert acc. induction l as [|x l IH]; intros acc H; simpl; [reflexivity|].
  rewrite (H acc x (or_introl eq_refl)). apply IH.
  intros s a I. apply H. now right.
Qed.

(** No entry whose type is [income] or [expenses] reaches the summary. *)
Lemma get_category_summary_skips (transactions : list txn) :
  Forall
    (fun t => txn_type t = Some "income" \/ txn_type t = Some "expenses")
    transactions ->
  helpers.get_category_summary transactions = Ok [].
Proof.
  intros H. rewrite get_category_summary_total.
  rewrite fold_left_skip; [reflexivity|].
  intros d t I. rewrite Forall_forall in H.
  unfold Spec.has_type. now destruct (H t I) as [-> | ->].
Qed.

(** C2 (failing input). A single transaction of type [expenses], category
    [Food] and amount 10 leaves the summary empty: the summarizer looks for
    the type [expense], which no stored transaction has. The same
    transaction typed [expense] gives the mapping [Food -> 10] that the
    specification describes. *)
Theorem get_category_summary_misses_expenses :
  helpers.get_category_summary
    [mk_txn None None (Some "lunch") (Some "Food") (Some "expenses") (Some 10)
       (Some "2024-01-01")]
  = Ok [] /\
  helpers.get_category_summary
    [mk_txn None None (Some "lunch") (Some "Food") (Some "expense") (Some 10)
       (Some "2024-01-01")]
  = Ok [("Food", 10)].
Proof. split; reflexivity. Qed.

(** ** The category summarizer on entries typed [expense] *)

(** A sort that lets tied elements stand does not reorder them. *)
Lemma filter_insert {A} (before : A -> A -> bool) (p : A -> bool) (x : A)
  (l : list A) :
  (forall a b, p a = true -> p b = true -> before a b = true) ->
  filter p (insert before x l) = if p x then x :: filter p l else filter p l.
Proof.
  intros T. induction l as [|y l IH]; simpl.
  - reflexivity.
  - destruct (before x y) eqn:B; simpl; [reflexivity|].
    rewrite IH. destruct (p x) eqn:Px, (p y) eqn:Py; try reflexivity.
    rewrite (T x y Px Py) in B. discriminate.
Qed.

Lemma sorted_stable {A} (before : A -> A -> bool) (p : A -> bool) (l : list A) :
  (forall a b, p a = true -> p b = true -> before a b = true) ->
  filter p (sorted before l) = filter p l.
Proof.
  intros T. induction l as [|x l IH]; [reflexivity|].
  change (sorted before (x :: l)) with (insert before x (sorted before l)).
  rewrite filter_insert by exact T. now rewrite IH.
Qed.

Lemma filter_twice {A} (p q : A -> bool) (l : list A) :
  filter p (filter q l) = filter (fun x => q x && p x) l.
Proof.
  induction l as [|x l IH]; simpl; [reflexivity|].
  destruct (q x); simpl; [|exact IH].
  destruct (p x); now rewrite IH.
Qed.

Lemma existsb_eqb_in (k : string) (l : list string) :
  existsb (String.eqb k) l = true <-> In k l.
Proof.
  rewrite existsb_exists. split.
  - intros (x & I & E). apply String.eqb_eq in E. now subst.
  - intros I. exists k. split; [exact I|apply String.eqb_refl].
Qed.

Lemma running_first_seen {X} (key : X -> string) (amt : X -> Q) (l : list X)
  (d : dict Q) :
  keys (fold_left (fun d x => Loops.add_amount d (key x) (amt x)) l d)
  = fold_left
      (fun seen k =>
         if existsb (String.eqb k) seen then seen else seen ++ [k])%list
      (map key l) (keys d).
Proof.
  revert d. induction l as [|x l IH]; intros d; simpl; [reflexivity|].
  rewrite IH. f_equal. unfold Loops.add_amount. rewrite keys_set.
  destruct (get d (key x)) as [v|] eqn:E.
  - apply get_some_keys in E. apply existsb_eqb_in in E. now rewrite E.
  - apply get_none_keys in E.
    destruct (existsb (String.eqb (key x)) (keys d)) eqn:B; [|reflexivity].
    apply existsb_eqb_in in B. contradiction.
Qed.

Lemma descending_total (x y : string * Q) :
  Qle_bool (snd y) (snd x) = false -> Qle_bool (snd x) (snd y) = true.
Proof.
  intros H. apply Qle_bool_iff. apply Qlt_le_weak. apply Qnot_le_lt.
  intros L. apply Qle_bool_iff in L. congruence.
Qed.

(** What the summarizer computes from the entries typed [expense]: one key
    per category, first met first, with the sum of the category's amounts;
    then a stable sort by descending amount, so that categories with equal
    sums stay in the order in which they were first met. *)
Lemma get_category_summary_of_tag (transactions : list txn) :
  let tagged := filter (Spec.has_type "expense") transactions in
  exists unsorted summary : dict Q,
    helpers.get_category_summary transactions = Ok summary /\
    keys unsorted = Spec.first_seen (map Spec.category_of tagged) /\
    NoDup (keys summary) /\
    Permutation summary unsorted /\
    (forall c v,
       In (c, v) summary ->
       v == Spec.total (Spec.category_amounts "expense" c transactions)) /\
    StronglySorted (fun x y => snd y <= snd x) summary /\
    (forall q,
       filter (fun kv => Qeq_bool (snd kv) q) summary
       = filter (fun kv => Qeq_bool (snd kv) q) unsorted).
Proof.
  intros tagged. rewrite get_category_summary_total.
  rewrite (fold_left_filter (Spec.has_type "expense")
             (fun d t => Loops.add_amount d (Spec.category_of t) (Spec.amount_of t))).
  fold tagged.
  set (unsorted :=
         fold_left
           (fun d t => Loops.add_amount d (Spec.category_of t) (Spec.amount_of t))
           tagged []).
  set (before := fun x y : string * Q => Qle_bool (snd y) (snd x)).
  assert (P : Permutation (sorted before unsorted) unsorted)
    by apply sorted_perm.
  assert (NU : NoDup (keys unsorted)).
  { apply running_keys_nodup. constructor. }
  assert (NS : NoDup (keys (sorted before unsorted))).
  { unfold keys. apply Permutation_NoDup with (map fst unsorted); [|exact NU].
    apply Permutation_map. now symmetry. }
  exists unsorted, (sorted before unsorted).
  rewrite (of_items_nodup _ NS).
  split; [reflexivity|]. split; [apply running_first_seen|].
  split; [exact NS|]. split; [exact P|]. split; [|split].
  - intros c v I. apply (Permutation_in _ P) in I.
    apply in_get in I; [|exact NU].
    generalize (running_get Spec.category_of Spec.amount_of tagged [] c).
    fold unsorted. rewrite I. simpl. intros ->.
    unfold Spec.category_amounts, tagged.
    rewrite filter_twice. ring.
  - apply Sorted_StronglySorted.
    + intros x y z Hxy Hyz. now apply Qle_trans with (snd y).
    + assert (S := sorted_Sorted before descending_total unsorted).
      clear - S. induction S as [|x l S IH H]; constructor; [exact IH|].
      destruct H as [|y l H]; constructor. now apply Qle_bool_iff.
  - intros q. apply sorted_stable. intros a b Ha Hb. unfold before.
    apply Qeq_bool_eq in Ha, Hb. apply Qle_bool_iff. rewrite Ha, Hb.
    apply Qle_refl.
Qed.

(** ** The report builder *)

Lemma category_row_total (total_expenses_calc : Q) (item : string * Q) :
  exists r, helpers.category_row total_expenses_calc item = Ok r.
Proof.
  destruct item as [category amount]. unfold helpers.category_row.
  destruct (gt total_expenses_calc 0) eqn:G.
  - apply gt_spec in G. rewrite truediv_ok.
    + simpl. now eexists.
    + intros E. rewrite E in G. discriminate.
  - simpl. now eexists.
Qed.

Lemma map_each_exists {A B} (f : A -> outcome B) (l : list A) :
  (forall a, exists b, f a = Ok b) -> exists bs, map_each f l = Ok bs.
Proof.
  intros H. induction l as [|x l [bs IH]]; simpl.
  - now eexists.
  - destruct (H x) as [b ->]. rewrite IH. now eexists.
Qed.

Lemma category_data_total (category_summary : dict Q) :
  exists rows, helpers.category_data category_summary = Ok rows.
Proof.
  unfold helpers.category_data.
  destruct (map_each_exists
              (helpers.category_row (sum (values category_summary)))
              category_summary
              (category_row_total (sum (values category_summary))))
    as [rows ->].
  simpl. now eexists.
Qed.

(** With numbers for totals, assembling the elements raises nothing. *)
Lemma report_elements_total (rl : env) (transactions : list txn)
  (total_income total_expenses balance : Q) :
  exists elements,
    helpers.report_elements rl transactions (Some total_income)
      (Some total_expenses) (Some balance)
    = Ok elements.
Proof.
  unfold helpers.report_elements. cbn [helpers.summary_data format_number bind].
  rewrite get_category_summary_total. cbn [bind].
  match goal with |- context [of_items ?l] => destruct (of_items l) as [|p d] end.
  - cbn [bind]. now eexists.
  - destruct (category_data_total (p :: d)) as [rows ->]. cbn [bind].
    now eexists.
Qed.

(** A total that is [None] makes the summary table raise. *)
Lemma report_elements_none (rl : env) (transactions : list txn)
  (total_income total_expenses balance : option Q) :
  total_income = None \/ total_expenses = None \/ balance = None ->
  helpers.report_elements rl transactions total_income total_expenses balance
  = Raise (TypeError "unsupported format string passed to NoneType.__format__").
Proof.
  unfold helpers.report_elements, helpers.summary_data.
  destruct total_income, total_expenses, balance; cbn [format_number bind];
    intros [H|[H|H]]; try discriminate H; reflexivity.
Qed.

(** For transactions typed as they are stored, [income] or [expenses], the
    report never has the expense breakdown section: the summarizer finds
    no category. *)
Lemma report_elements_without_breakdown (rl : env) (transactions : list txn)
  (total_income total_expenses balance : Q) :
  Forall
    (fun t => txn_type t = Some "income" \/ txn_type t = Some "expenses")
    transactions ->
  exists elements,
    helpers.report_elements rl transactions (Some total_income)
      (Some total_expenses) (Some balance)
    = Ok elements /\
    ~ In (Paragraph "Expense Breakdown by Category" "SectionHeading") elements.
Proof.
  intros H. unfold helpers.report_elements.
  cbn [helpers.summary_data format_number bind].
  rewrite (get_category_summary_skips H). cbn [bind].
  eexists. split; [reflexivity|].
  destruct transactions; simpl; intros I;
    repeat (destruct I as [I|I]; [discriminate I|]); exact I.
Qed.



(** C9. Whatever the transactions, the file name, the totals and the
    behaviour of the document template, [build_transaction_pdf] returns a
    boolean and raises nothing. It returns [True], with nothing printed,
    when the body of its [try] block completes, and [False], with the line
    "Error building PDF: ..." printed, when the body raises. With numbers
    for totals the elements are assembled without an exception, so the body
    completes exactly when the template is created and accepts them; a total
    that is [None] makes the body raise a [TypeError], which is caught like
    the others. *)
Theorem build_transaction_pdf_never_raises (rl : env) (transactions : list txn)
  (filename : string) (total_income total_expenses balance : option Q) :
  let body :=
    helpers.build_report rl transactions filename total_income total_expenses
      balance in
  let result :=
    helpers.build_transaction_pdf rl transactions filename total_income
      total_expenses balance in
  (exists (b : bool) (printed : list string), result = (Ok b, printed)) /\
  (forall b, body = Ok b -> result = (Ok true, [])) /\
  (forall e,
     body = Raise e ->
     result = (Ok false, ["Error building PDF: " ++ str_exn e])) /\
  (forall ti te bal,
     total_income = Some ti -> total_expenses = Some te -> balance = Some bal ->
     exists elements,
       helpers.report_elements rl transactions total_income total_expenses
         balance
       = Ok elements /\
       (body = Ok true
        <-> SimpleDocTemplate rl filename = Ok tt /\
            build rl filename elements = Ok tt)) /\
  (total_income = None \/ total_expenses = None \/ balance = None ->
   SimpleDocTemplate rl filename = Ok tt ->
   body
   = Raise (TypeError "unsupported format string passed to NoneType.__format__")).
Proof.
  intros body result.
  assert (B : forall b, body = Ok b -> b = true).
  { unfold body, helpers.build_report. intros b.
    destruct (SimpleDocTemplate rl filename); cbn [bind]; [|discriminate].
    destruct (helpers.report_elements _ _ _ _ _) as [els|]; cbn [bind];
      [|discriminate].
    destruct (build rl filename els); cbn [bind]; [|discriminate].
    now intros [= <-]. }
  split; [|split; [|split; [|split]]].
  - unfold result, helpers.build_transaction_pdf. fold body.
    destruct body as [b|e]; simpl; now eexists _, _.
  - intros b E. unfold result, helpers.build_transaction_pdf. fold body.
    rewrite E. simpl. now rewrite (B b E).
  - intros e E. unfold result, helpers.build_transaction_pdf. fold body.
    now rewrite E.
  - intros ti te bal -> -> ->.
    destruct (report_elements_total rl transactions ti te bal)
      as [elements E].
    exists elements. split; [exact E|].
    unfold body, helpers.build_report. rewrite E.
    destruct (SimpleDocTemplate rl filename) as [[]|e]; cbn [bind].
    + destruct (build rl filename elements) as [[]|e]; cbn [bind].
      * now split.
      * split; [discriminate|]. now intros [_ H].
    + split; [discriminate|]. now intros [H _].
  - intros N E. unfold body, helpers.build_report. rewrite E. cbn [bind].
    now rewrite report_elements_none by exact N.
Qed.

(** C9, witness: the file cannot be written; the builder prints the error
    and returns [False]. *)
Lemma build_transaction_pdf_never_raises_witness :
  helpers.build_transaction_pdf
    (mk_env "January 05, 2024" "2024-01-05 10:00:00"
       (fun _ => Ok tt) (fun _ _ => Raise (ExternalError "disk full")))
    [mk_txn None None (Some "lunch") (Some "Food") (Some "expenses") (Some 10)
       (Some "2024-01-01")]
    "report.pdf" (Some 0) (Some 10) (Some (0 - 10))
  = (Ok false, ["Error building PDF: disk full"]).
Proof.
  destruct (build_transaction_pdf_never_raises
              (mk_env "January 05, 2024" "2024-01-05 10:00:00"
                 (fun _ => Ok tt) (fun _ _ => Raise (ExternalError "disk full")))
              [mk_txn None None (Some "lunch") (Some "Food") (Some "expenses")
                 (Some 10) (Some "2024-01-01")]
              "report.pdf" (Some 0) (Some 10) (Some (0 - 10)))
    as (_ & _ & H & _).
  apply (H (ExternalError "disk full")). reflexivity.
Defined.

(** ** The dashboard feed: category percentages *)











Lemma select_of_user (user_id : Z) (db : table) :
  Sqlite.select_where
    (fun r => Sqlite.equals (Sqlite.Integer (row_user_id r))
                (Sqlite.Integer user_id))
    db
  = Spec.of_user user_id db.
Proof.
  unfold Sqlite.select_where, Spec.of_user. apply filter_ext.
  intros r. simpl. now destruct (Z.eqb (row_user_id r) user_id).
Qed.








(** ** The dashboard feed: trend series *)
















(** * Further properties *)

(** ** The health score: range and monotonicity *)








(** ** Reading the transactions of a user *)

Lemma order_by_date_desc_sorted (rows : table) :
  StronglySorted (fun x y => String.leb (row_date y) (row_date x) = true)
    (Sqlite.order_by_date_desc rows).
Proof.
  apply Sorted_StronglySorted.
  - intros x y z Hxy Hyz. now apply string_leb_trans with (row_date y).
  - unfold Sqlite.order_by_date_desc.
    apply (sorted_Sorted
             (fun x y => String.leb (row_date y) (row_date x))).
    intros x y. apply string_leb_total.
Qed.

Lemma order_by_date_desc_perm (rows : table) :
  Permutation (Sqlite.order_by_date_desc rows) rows.
Proof. apply sorted_perm. Qed.

Lemma select_row_user_is (user_id : Z) (db : table) :
  Sqlite.select_where (Db.row_user_is user_id) db = Spec.of_user user_id db.
Proof. apply select_of_user. Qed.

(** X3. [get_transaction_data] returns one dictionary for each transaction
    of the user and for no other row, latest date first, with the five keys
    date, amount, type, category and description and without the row id or
    the user id. *)
Theorem get_transaction_data_rows (db : table) (user_id : Z) :
  exists rows : table,
    helpers.get_transaction_data db user_id = map dict_of_row5 rows /\
    Permutation rows (Spec.of_user user_id db) /\
    StronglySorted (fun x y => String.leb (row_date y) (row_date x) = true)
      rows /\
    Forall
      (fun t =>
         txn_id t = None /\ txn_user_id t = None /\ txn_date t <> None /\
         txn_amount t <> None /\ txn_type t <> None /\
         txn_category t <> None /\ txn_description t <> None)
      (helpers.get_transaction_data db user_id).
Proof.
  unfold helpers.get_transaction_data. rewrite select_of_user.
  exists (Sqlite.order_by_date_desc (Spec.of_user user_id db)).
  split; [reflexivity|]. split; [apply order_by_date_desc_perm|].
  split; [apply order_by_date_desc_sorted|].
  apply Forall_forall. intros t I. apply in_map_iff in I.
  destruct I as (r & <- & _). simpl. repeat split; discriminate.
Qed.

(** ** The formatter: errors and normal form *)

Lemma format_transaction_result (t : txn) :
  helpers.format_transaction t
  = match txn_date t with
    | Some d => Ok (set_date t (Spec.before_space d))
    | None => Raise (KeyError "date")
    end.
Proof.
  destruct (txn_date t) as [d|] eqn:E.
  - now apply format_transaction_dated.
  - unfold helpers.format_transaction. now rewrite E.
Qed.

Lemma format_transactions_raise (transactions : list txn) (e : exn) :
  helpers.format_transactions transactions = Raise e -> e = KeyError "date".
Proof.
  unfold helpers.format_transactions.
  induction transactions as [|t l IH]; simpl; [discriminate|].
  rewrite format_transaction_result.
  destruct (txn_date t); [|now intros [= <-]].
  destruct (map_each helpers.format_transaction l); [discriminate|].
  intros [= <-]. now apply IH.
Qed.

(** X4. [format_transactions] raises exactly when some entry has no [date]
    key, and then it is [KeyError('date')]; otherwise it returns a list of
    the same length in which no date contains a space. *)
Theorem format_transactions_key_error (transactions : list txn) :
  ((exists t, In t transactions /\ txn_date t = None) ->
   helpers.format_transactions transactions = Raise (KeyError "date")) /\
  (forall e,
     helpers.format_transactions transactions = Raise e ->
     e = KeyError "date" /\ exists t, In t transactions /\ txn_date t = None) /\
  (forall formatted,
     helpers.format_transactions transactions = Ok formatted ->
     List.length formatted = List.length transactions /\
     Forall
       (fun t' => exists d, txn_date t' = Some d /\ Spec.has_space d = false)
       formatted).
Proof.
  split; [|split].
  - intros (t & I & N).
    destruct (helpers.format_transactions transactions) as [l'|e] eqn:E.
    + apply format_transactions_dated in E. rewrite Forall_forall in E.
      now destruct (E t I).
    + now rewrite (format_transactions_raise _ E).
  - intros e E. split; [now apply format_transactions_raise with transactions|].
    destruct (Exists_dec (fun t => txn_date t = None) transactions) as [X|NX].
    + intros t. destruct (txn_date t); [right; discriminate|now left].
    + apply Exists_exists in X. exact X.
    + exfalso.
      destruct (format_transactions_fixed (transactions := transactions))
        as (l' & E' & _); [|congruence].
      apply Forall_forall. intros t I N. apply NX. apply Exists_exists.
      now exists t.
  - intros formatted E.
    destruct (format_transactions_fixed (format_transactions_dated _ E))
      as (l' & E1 & _ & F).
    rewrite E in E1. injection E1 as <-. split.
    + symmetry. now apply Forall2_length with (1 := F).
    + clear E. induction F as [|t t' l l' (d & _ & Ed & _) F IH];
        constructor; [|exact IH].
      exists (Spec.before_space d). split; [exact Ed|].
      apply before_space_no_space.
Qed.

(** X4, witness: the second entry has no date. *)
Lemma format_transactions_key_error_witness :
  helpers.format_transactions
    [ mk_txn None None (Some "pay") (Some "Job") (Some "income") (Some 90)
        (Some "2024-01-06");
      mk_txn None None (Some "bus") (Some "Travel") (Some "expenses") (Some 3)
        None ]
  = Raise (KeyError "date").
Proof.
  apply (format_transactions_key_error
           [ mk_txn None None (Some "pay") (Some "Job") (Some "income")
               (Some 90) (Some "2024-01-06");
             mk_txn None None (Some "bus") (Some "Travel") (Some "expenses")
               (Some 3) None ]).
  eexists. split; [right; left; reflexivity|reflexivity].
Defined.

(** ** The summary: what it depends on *)



(** ** The report: its tables and its layout *)





Lemma first_seen_grows (ks seen : list string) :
  (List.length seen
   <= List.length
        (fold_left
           (fun seen k =>
              if existsb (String.eqb k) seen then seen else seen ++ [k])%list
           ks seen))%nat.
Proof.
  revert seen. induction ks as [|k ks IH]; intros seen; simpl; [lia|].
  destruct (existsb (String.eqb k) seen); [apply IH|].
  specialize (IH (seen ++ [k])%list). rewrite length_app in IH. simpl in IH.
  lia.
Qed.

Lemma first_seen_nil (ks : list string) : Spec.first_seen ks = [] <-> ks = [].
Proof.
  split; [|now intros ->].
  destruct ks as [|k ks]; [reflexivity|]. unfold Spec.first_seen. simpl.
  intros E. generalize (first_seen_grows ks [k]). rewrite E. simpl. lia.
Qed.

(** The summary has one entry per category met among the entries typed
    [expense]. *)
Lemma get_category_summary_size (transactions : list txn) :
  exists summary : dict Q,
    helpers.get_category_summary transactions = Ok summary /\
    List.length summary
    = List.length
        (Spec.first_seen
           (map Spec.category_of
              (filter (Spec.has_type "expense") transactions))).
Proof.
  destruct (get_category_summary_of_tag transactions)
    as (unsorted & summary & E & K & _ & P & _).
  exists summary. split; [exact E|].
  rewrite <- K. unfold keys. rewrite length_map.
  now apply Permutation_length.
Qed.

Lemma category_row_cells (total_expenses_calc : Q) (item : string * Q) :
  exists percentage,
    helpers.category_row total_expenses_calc item
    = Ok [fst item; "$" ++ format_f true 2 (snd item); percentage ++ "%"].
Proof.
  destruct item as [category amount]. unfold helpers.category_row.
  destruct (gt total_expenses_calc 0) eqn:G.
  - apply gt_spec in G. rewrite truediv_ok.
    + cbn [bind]. now eexists.
    + intros E. rewrite E in G. discriminate.
  - cbn [bind]. now eexists.
Qed.

Lemma category_data_rows (category_summary : dict Q) :
  exists rows,
    helpers.category_data category_summary
    = Ok (["Category"; "Amount"; "Percentage"] :: rows) /\
    Forall2
      (fun item cells =>
         exists percentage,
           cells = [fst item; "$" ++ format_f true 2 (snd item);
                    percentage ++ "%"])
      category_summary rows.
Proof.
  unfold helpers.category_data.
  set (total := sum (values category_summary)). clearbody total.
  assert (H : exists rows,
             map_each (helpers.category_row total) category_summary = Ok rows /\
             Forall2
               (fun item cells =>
                  exists percentage,
                    cells = [fst item; "$" ++ format_f true 2 (snd item);
                             percentage ++ "%"])
               category_summary rows).
  { induction category_summary as [|item d (rows & E & F)]; simpl.
    - exists []. split; [reflexivity|constructor].
    - destruct (category_row_cells total item) as [p Ep]. rewrite Ep, E.
      eexists. split; [reflexivity|]. constructor; [now exists p|exact F]. }
  destruct H as (rows & -> & F). exists rows. now split.
Qed.

(** X7. With numbers for totals the report is, in this order: the dated
    header and the financial summary; the expense breakdown, present exactly
    when some entry is typed [expense] and then holding a header row and one
    row of three cells per category; the heading of the transaction details
    with the table of the transactions, or with the notice when there is no
    transaction; and the footer with its time stamp. *)
Theorem report_elements_layout (rl : env) (transactions : list txn)
  (total_income total_expenses balance : Q) :
  let tagged := filter (Spec.has_type "expense") transactions in
  exists summary breakdown details,
    helpers.report_elements rl transactions (Some total_income)
      (Some total_expenses) (Some balance)
    = Ok ([ Paragraph ("Financial Report - " ++ now_B_d_Y rl) "Subtitle";
            Spacer 1 12;
            Paragraph "Financial Summary" "SectionHeading";
            Table summary;
            Spacer 1 20 ]
          ++ breakdown
          ++ [ Paragraph "Transaction Details" "SectionHeading";
               details;
               Spacer 1 30;
               Paragraph "Generated by BudgetBuddy Financial Tracker" "Footer";
               Paragraph (now_Y_m_d_H_M_S rl) "Footer" ])%list /\
    (tagged = [] -> breakdown = []) /\
    (tagged <> [] ->
     exists rows,
       breakdown
       = [ Paragraph "Expense Breakdown by Category" "SectionHeading";
           Table (["Category"; "Amount"; "Percentage"] :: rows);
           Spacer 1 20 ] /\
       List.length rows
       = List.length (Spec.first_seen (map Spec.category_of tagged)) /\
       Forall (fun cells => List.length cells = 3%nat) rows) /\
    (transactions = [] ->
     details = Paragraph "No transactions available." "NoData") /\
    (transactions <> [] -> details = Table (helpers.table_data transactions)).
Proof.
  intros tagged.
  destruct (get_category_summary_size transactions) as (d & E & L).
  fold tagged in L.
  unfold helpers.report_elements.
  cbn [helpers.summary_data format_number bind]. rewrite E. cbn [bind].
  assert (D : exists details,
             (match transactions with
              | [] => Paragraph "No transactions available." "NoData"
              | _ => Table (helpers.table_data transactions)
              end) = details /\
             (transactions = [] ->
              details = Paragraph "No transactions available." "NoData") /\
             (transactions <> [] ->
              details = Table (helpers.table_data transactions))).
  { eexists. split; [reflexivity|].
    destruct transactions; split; congruence. }
  destruct D as (details & Ed & D1 & D2).
  destruct d as [|item d].
  - cbn [bind].
    exists [ ["Metric"; "Amount"];
             ["Total Income"; "$" ++ format_f true 2 total_income];
             ["Total Expenses"; "$" ++ format_f true 2 total_expenses];
             ["Net Balance"; "$" ++ format_f true 2 balance] ],
      [], details.
    split.
    + rewrite <- Ed. now destruct transactions.
    + split; [reflexivity|]. split; [|now split].
      intros N. exfalso. apply N. apply map_eq_nil with (f := Spec.category_of).
      apply first_seen_nil. now apply length_zero_iff_nil.
  - destruct (category_data_rows (item :: d)) as (rows & Er & F).
    rewrite Er. cbn [bind].
    exists [ ["Metric"; "Amount"];
             ["Total Income"; "$" ++ format_f true 2 total_income];
             ["Total Expenses"; "$" ++ format_f true 2 total_expenses];
             ["Net Balance"; "$" ++ format_f true 2 balance] ],
      [ Paragraph "Expense Breakdown by Category" "SectionHeading";
        Table (["Category"; "Amount"; "Percentage"] :: rows);
        Spacer 1 20 ],
      details.
    split.
    + rewrite <- Ed. destruct transactions; reflexivity.
    + split; [|split; [|now split]].
      * intros T. rewrite T in L. discriminate L.
      * intros _. exists rows. split; [reflexivity|]. split.
        -- rewrite <- L. symmetry. now apply Forall2_length with (1 := F).
        -- clear - F. induction F as [|x cells l rows [p ->] F IH];
             constructor; [reflexivity|exact IH].
Qed.

(** X7, witness: one entry typed [expense] gives a breakdown of one row. *)
Lemma report_elements_layout_witness :
  exists elements,
    helpers.report_elements
      (mk_env "January 05, 2024" "2024-01-05 10:00:00"
         (fun _ => Ok tt) (fun _ _ => Ok tt))
      [mk_txn None None (Some "lunch") (Some "Food") (Some "expense")
         (Some 10) (Some "2024-01-01")]
      (Some 0) (Some 10) (Some (0 - 10))
    = Ok elements /\
    List.length elements = 13%nat.
Proof.
  destruct (report_elements_layout
              (mk_env "January 05, 2024" "2024-01-05 10:00:00"
                 (fun _ => Ok tt) (fun _ _ => Ok tt))
              [mk_txn None None (Some "lunch") (Some "Food") (Some "expense")
                 (Some 10) (Some "2024-01-01")]
              0 10 (0 - 10))
    as (summary & breakdown & details & E & _ & B & _).
  destruct B as (rows & -> & _); [discriminate|].
  eexists. split; [exact E|reflexivity].
Defined.

(** ** The category summarizer: the whole of what it computes *)



(** ** The dashboard feed: series and totals *)







Lemma of_type_of_user (user_id : Z) (type : string) (db : table) :
  Spec.of_type user_id type db
  = filter (fun r => String.eqb (row_type r) type) (Spec.of_user user_id db).
Proof. unfold Spec.of_type, Spec.of_user. now rewrite filter_twice. Qed.




(** ** One user's data only *)

Lemma select_type_of_user (user_id : Z) (type : string) (db : table) :
  Sqlite.select_where (helpers.of_user_and_type user_id type) db
  = filter (fun r => String.eqb (row_type r) type) (Spec.of_user user_id db).
Proof. now rewrite select_of_user_and_type, of_type_of_user. Qed.

(** X10. What a user is shown depends on that user's rows alone: two tables
    with the same rows for the user give the same summary, transaction
    list, dashboard, dashboard feed, analytics and report, whatever rows of
    other users they hold. *)
Theorem views_depend_on_own_rows (rl : env) (db1 db2 : table)
  (current_user : routes.User) (temp_name : string) :
  Spec.of_user (routes.id current_user) db1
  = Spec.of_user (routes.id current_user) db2 ->
  helpers.get_transaction_summary db1 (routes.id current_user)
  = helpers.get_transaction_summary db2 (routes.id current_user) /\
  helpers.get_transaction_data db1 (routes.id current_user)
  = helpers.get_transaction_data db2 (routes.id current_user) /\
  app.dashboard_data db1 (routes.id current_user)
  = app.dashboard_data db2 (routes.id current_user) /\
  routes.dashboard db1 current_user = routes.dashboard db2 current_user /\
  routes.transactions_get db1 current_user
  = routes.transactions_get db2 current_user /\
  routes.analytics db1 current_user = routes.analytics db2 current_user /\
  routes.download_report rl db1 current_user temp_name
  = routes.download_report rl db2 current_user temp_name.
Proof.
  intros E.
  assert (S : helpers.get_transaction_summary db1 (routes.id current_user)
              = helpers.get_transaction_summary db2 (routes.id current_user)).
  { unfold helpers.get_transaction_summary.
    now rewrite !select_type_of_user, E. }
  assert (D : helpers.get_transaction_data db1 (routes.id current_user)
              = helpers.get_transaction_data db2 (routes.id current_user)).
  { unfold helpers.get_transaction_data. now rewrite !select_of_user, E. }
  split; [exact S|]. split; [exact D|]. split; [|split; [|split; [|split]]].
  - unfold app.dashboard_data.
    now rewrite !select_type_of_user, !select_of_user, E.
  - unfold routes.dashboard.
    now rewrite !select_type_of_user, !select_row_user_is, E.
  - unfold routes.transactions_get. now rewrite !select_row_user_is, E.
  - unfold routes.analytics. now rewrite !select_type_of_user, E.
  - unfold routes.download_report. now rewrite D, S.
Qed.

(** X10, witness: user 7 beside the rows of user 8. *)
Lemma views_depend_on_own_rows_witness :
  app.dashboard_data
    [ mk_row 1 7 "pay" "Job" "income" 100 "2024-01-01";
      mk_row 2 8 "gift" "Other" "income" 5 "2024-01-15";
      mk_row 3 7 "lunch" "Food" "expenses" 40 "2024-01-01" ] 7
  = app.dashboard_data
      [ mk_row 1 7 "pay" "Job" "income" 100 "2024-01-01";
        mk_row 3 7 "lunch" "Food" "expenses" 40 "2024-01-01" ] 7.
Proof.
  apply (@views_depend_on_own_rows
           (mk_env "" "" (fun _ => Ok tt) (fun _ _ => Ok tt))
           [ mk_row 1 7 "pay" "Job" "income" 100 "2024-01-01";
             mk_row 2 8 "gift" "Other" "income" 5 "2024-01-15";
             mk_row 3 7 "lunch" "Food" "expenses" 40 "2024-01-01" ]
           [ mk_row 1 7 "pay" "Job" "income" 100 "2024-01-01";
             mk_row 3 7 "lunch" "Food" "expenses" 40 "2024-01-01" ]
           (routes.mk_User 7 "ann") "t.pdf").
  reflexivity.
Defined.

(** ** The pages that list transactions *)

Lemma format_rows (f : row -> txn) (rows : table) :
  (forall r, txn_date (f r) = Some (row_date r)) ->
  helpers.format_transactions (map f rows)
  = Ok (map (fun r => set_date (f r) (Spec.before_space (row_date r))) rows).
Proof.
  intros H. unfold helpers.format_transactions.
  induction rows as [|r rows IH]; simpl; [reflexivity|].
  now rewrite (format_transaction_dated _ (H r)), IH.
Qed.

Lemma StronglySorted_app_cross {A} (R : A -> A -> Prop) (l1 l2 : list A) :
  StronglySorted R (l1 ++ l2) ->
  forall a b, In a l1 -> In b l2 -> R a b.
Proof.
  induction l1 as [|x l1 IH]; simpl; intros S a b Ia Ib; [contradiction|].
  apply StronglySorted_inv in S. destruct S as [S F].
  destruct Ia as [<-|Ia].
  - rewrite Forall_forall in F. apply F. apply in_or_app. now right.
  - now apply IH.
Qed.

Lemma StronglySorted_app_left {A} (R : A -> A -> Prop) (l1 l2 : list A) :
  StronglySorted R (l1 ++ l2) -> StronglySorted R l1.
Proof.
  induction l1 as [|x l1 IH]; simpl; intros S; [constructor|].
  apply StronglySorted_inv in S. destruct S as [S F].
  constructor; [now apply IH|].
  rewrite Forall_forall in *. intros y I. apply F. apply in_or_app. now left.
Qed.

(** X11. The dashboard page never fails. Its totals and balance are those of
    [get_transaction_summary]; it shows at most five transactions, all of
    the user, latest first, no transaction left out being later than one
    shown; each is shown with its date cut at the first space. *)
Theorem dashboard_recent_transactions (db : table)
  (current_user : routes.User) :
  exists ctx shown rest,
    routes.dashboard db current_user = Ok ctx /\
    (routes.ctx_total_income ctx, routes.ctx_total_expenses ctx,
     routes.ctx_balance ctx)
    = helpers.get_transaction_summary db (routes.id current_user) /\
    Permutation (shown ++ rest) (Spec.of_user (routes.id current_user) db) /\
    List.length shown
    = Nat.min 5 (List.length (Spec.of_user (routes.id current_user) db)) /\
    StronglySorted (fun x y => String.leb (row_date y) (row_date x) = true)
      shown /\
    (forall s r,
       In s shown -> In r rest ->
       String.leb (row_date r) (row_date s) = true) /\
    routes.ctx_transactions ctx
    = map (fun r => set_date (dict_of_row r) (Spec.before_space (row_date r)))
        shown.
Proof.
  unfold routes.dashboard. rewrite select_row_user_is.
  set (own := Spec.of_user (routes.id current_user) db).
  set (ordered := Sqlite.order_by_date_desc own).
  rewrite (format_rows dict_of_row) by reflexivity. cbn [bind].
  assert (S : StronglySorted
                (fun x y => String.leb (row_date y) (row_date x) = true)
                (firstn 5 ordered ++ skipn 5 ordered)).
  { rewrite firstn_skipn. apply order_by_date_desc_sorted. }
  eexists _, (firstn 5 ordered), (skipn 5 ordered).
  split; [reflexivity|]. split; [reflexivity|]. split.
  { rewrite firstn_skipn. apply order_by_date_desc_perm. }
  split.
  { rewrite length_firstn. unfold ordered.
    now rewrite (Permutation_length (order_by_date_desc_perm own)). }
  split; [now apply StronglySorted_app_left with (skipn 5 ordered)|].
  split; [|reflexivity].
  intros s r Is Ir.
  now apply (StronglySorted_app_cross _ _ S).
Qed.

(** X12. The transactions page never fails and lists every transaction of
    the user exactly once, latest first, each with all its columns and its
    date cut at the first space. *)
Theorem transactions_get_lists_all (db : table) (current_user : routes.User) :
  exists rows,
    routes.transactions_get db current_user
    = Ok (map (fun r => set_date (dict_of_row r)
                          (Spec.before_space (row_date r)))
            rows) /\
    Permutation rows (Spec.of_user (routes.id current_user) db) /\
    StronglySorted (fun x y => String.leb (row_date y) (row_date x) = true)
      rows.
Proof.
  unfold routes.transactions_get. rewrite select_row_user_is.
  rewrite (format_rows dict_of_row) by reflexivity.
  eexists. split; [reflexivity|].
  split; [apply order_by_date_desc_perm|apply order_by_date_desc_sorted].
Qed.

(** ** Analytics *)



(** ** The report download *)

Lemma download_transactions (db : table) (user_id : Z) :
  helpers.format_transactions (helpers.get_transaction_data db user_id)
  = Ok (map (fun r => set_date (dict_of_row5 r)
                        (Spec.before_space (row_date r)))
          (Sqlite.order_by_date_desc (Spec.of_user user_id db))).
Proof.
  unfold helpers.get_transaction_data. rewrite select_of_user.
  now rewrite (format_rows dict_of_row5).
Qed.

(** X14. The download route raises nothing and always answers with the
    temporary file under the name [<username>_financial_report.pdf],
    whether the report was built or not: it does not look at what
    [build_transaction_pdf] returns. When creating the template or building
    the document raises, the only trace is the printed line. *)
Theorem download_report_always_sends (rl : env) (db : table)
  (current_user : routes.User) (temp_name : string) :
  exists transactions elements printed,
    helpers.format_transactions
      (helpers.get_transaction_data db (routes.id current_user))
    = Ok transactions /\
    (let '(total_income, total_expenses, balance) :=
       helpers.get_transaction_summary db (routes.id current_user) in
     helpers.report_elements rl transactions (Some total_income)
       (Some total_expenses) (Some balance))
    = Ok elements /\
    routes.download_report rl db current_user temp_name
    = (Ok (send_file temp_name
             (routes.username current_user ++ "_financial_report.pdf")),
       printed) /\
    (SimpleDocTemplate rl temp_name = Ok tt ->
     build rl temp_name elements = Ok tt -> printed = []) /\
    (forall e,
       SimpleDocTemplate rl temp_name = Raise e \/
       SimpleDocTemplate rl temp_name = Ok tt /\
       build rl temp_name elements = Raise e ->
       printed = ["Error building PDF: " ++ str_exn e]).
Proof.
  unfold routes.download_report. rewrite download_transactions.
  unfold helpers.get_transaction_summary.
  set (ti := or0 (Sqlite.SUM _)). set (te := or0 (Sqlite.SUM _)).
  set (ts := map _ (Sqlite.order_by_date_desc _)).
  destruct (report_elements_total rl ts ti te (ti - te)) as [elements E].
  unfold helpers.build_transaction_pdf, helpers.build_report. rewrite E.
  exists ts, elements.
  destruct (SimpleDocTemplate rl temp_name) as [[]|e1] eqn:E1; cbn [bind].
  - destruct (build rl temp_name elements) as [[]|e2] eqn:E2;
      cbn [bind try_except]; eexists;
      (split; [reflexivity|]); (split; [exact E|]);
      (split; [reflexivity|]); split.
    + reflexivity.
    + intros e [H|[_ H]]; discriminate H.
    + discriminate.
    + intros e [H|[_ H]]; [discriminate H|]. now injection H as <-.
  - cbn [try_except]. eexists.
    split; [reflexivity|]. split; [exact E|]. split; [reflexivity|].
    split; [discriminate|].
    intros e [H|[H _]]; [|discriminate H]. now injection H as <-.
Qed.

(** X14, witness: the document cannot be built, the file is sent all the
    same. *)
Lemma download_report_always_sends_witness :
  exists printed,
    routes.download_report
      (mk_env "January 05, 2024" "2024-01-05 10:00:00"
         (fun _ => Raise (ExternalError "no space left")) (fun _ _ => Ok tt))
      [mk_row 1 7 "pay" "Job" "income" 100 "2024-01-01"]
      (routes.mk_User 7 "ann") "tmp8.pdf"
    = (Ok (send_file "tmp8.pdf" "ann_financial_report.pdf"), printed) /\
    printed = ["Error building PDF: no space left"].
Proof.
  destruct (download_report_always_sends
              (mk_env "January 05, 2024" "2024-01-05 10:00:00"
                 (fun _ => Raise (ExternalError "no space left"))
                 (fun _ _ => Ok tt))
              [mk_row 1 7 "pay" "Job" "income" 100 "2024-01-01"]
              (routes.mk_User 7 "ann") "tmp8.pdf")
    as (ts & elements & printed & _ & _ & E & _ & H).
  exists printed. split; [exact E|].
  apply (H (ExternalError "no space left")). now left.
Defined.

Lemma formatted_types (f : row -> txn) (rows : table) :
  (forall r, txn_type (f r) = Some (row_type r)) ->
  Forall (fun r => row_type r = "income" \/ row_type r = "expenses") rows ->
  Forall
    (fun t => txn_type t = Some "income" \/ txn_type t = Some "expenses")
    (map (fun r => set_date (f r) (Spec.before_space (row_date r))) rows).
Proof.
  intros H F. apply Forall_forall. intros t I. apply in_map_iff in I.
  destruct I as (r & <- & I). rewrite Forall_forall in F. simpl. rewrite H.
  destruct (F r I) as [-> | ->]; [now left|now right].
Qed.

(** X15. For a user whose transactions are typed [income] or [expenses], the
    downloaded report has no expense breakdown section. It lists one row
    per transaction of the user under the header row, or the notice when
    the user has none. *)
Theorem download_report_contents (rl : env) (db : table)
  (current_user : routes.User) :
  let own := Spec.of_user (routes.id current_user) db in
  Forall (fun r => row_type r = "income" \/ row_type r = "expenses") own ->
  exists transactions elements,
    helpers.format_transactions
      (helpers.get_transaction_data db (routes.id current_user))
    = Ok transactions /\
    (let '(total_income, total_expenses, balance) :=
       helpers.get_transaction_summary db (routes.id current_user) in
     helpers.report_elements rl transactions (Some total_income)
       (Some total_expenses) (Some balance))
    = Ok elements /\
    ~ In (Paragraph "Expense Breakdown by Category" "SectionHeading") elements /\
    List.length transactions = List.length own /\
    (own = [] -> In (Paragraph "No transactions available." "NoData") elements) /\
    (own <> [] ->
     In (Table (helpers.table_data transactions)) elements /\
     List.length (helpers.table_data transactions) = S (List.length own)).
Proof.
  intros own H. rewrite download_transactions. fold own.
  set (ordered := Sqlite.order_by_date_desc own).
  assert (P : Permutation ordered own) by apply order_by_date_desc_perm.
  set (ts := map _ ordered).
  assert (L : List.length ts = List.length own).
  { unfold ts. rewrite length_map. now apply Permutation_length. }
  assert (T : Forall
                (fun t => txn_type t = Some "income" \/
                          txn_type t = Some "expenses")
                ts).
  { apply (formatted_types dict_of_row5); [reflexivity|]. now rewrite P. }
  exists ts. eexists. split; [reflexivity|].
  unfold helpers.get_transaction_summary. cbv beta zeta iota.
  unfold helpers.report_elements.
  cbn [helpers.summary_data format_number bind].
  rewrite (get_category_summary_skips T). cbn [bind].
  split; [reflexivity|].
  split; [|split; [exact L|]].
  - destruct ts; simpl; intros I;
      repeat (destruct I as [I|I]; [discriminate I|]); exact I.
  - destruct ts as [|t ts']; split.
    + intros _. simpl. do 6 right. now left.
    + intros N. destruct own; [now contradiction N|discriminate L].
    + intros E0. rewrite E0 in L. discriminate L.
    + intros _. split; [simpl; do 6 right; now left|].
      unfold helpers.table_data. simpl. rewrite length_map.
      simpl in L. now rewrite L.
Qed.

(** X15, witness: a user with one income and one expense. *)
Lemma download_report_contents_witness :
  exists transactions elements,
    helpers.format_transactions
      (helpers.get_transaction_data
         [ mk_row 1 7 "pay" "Job" "income" 100 "2024-01-01";
           mk_row 2 7 "lunch" "Food" "expenses" 40 "2024-01-02" ] 7)
    = Ok transactions /\
    helpers.report_elements
      (mk_env "January 05, 2024" "2024-01-05 10:00:00"
         (fun _ => Ok tt) (fun _ _ => Ok tt))
      transactions (Some 100) (Some 40) (Some (100 - 40))
    = Ok elements /\
    ~ In (Paragraph "Expense Breakdown by Category" "SectionHeading") elements.
Proof.
  destruct (download_report_contents
              (mk_env "January 05, 2024" "2024-01-05 10:00:00"
                 (fun _ => Ok tt) (fun _ _ => Ok tt))
              [ mk_row 1 7 "pay" "Job" "income" 100 "2024-01-01";
                mk_row 2 7 "lunch" "Food" "expenses" 40 "2024-01-02" ]
              (routes.mk_User 7 "ann"))
    as (ts & elements & E1 & E2 & N & _).
  - simpl. constructor; [now left|]. constructor; [now right|constructor].
  - exists ts, elements. split; [exact E1|]. split; [exact E2|exact N].
Defined.

(** ** Deleting a transaction *)

Lemma select_row_id_is (txn_id : Z) (db : table) :
  Sqlite.select_where (Db.row_id_is txn_id) db
  = filter (fun r => Z.eqb (row_id r) txn_id) db.
Proof.
  unfold Sqlite.select_where. apply filter_ext. intros r. simpl.
  now destruct (Z.eqb (row_id r) txn_id).
Qed.

Lemma delete_row_id_is (txn_id : Z) (db : table) :
  Db.delete_where (Db.row_id_is txn_id) db
  = filter (fun r => negb (Z.eqb (row_id r) txn_id)) db.
Proof.
  unfold Db.delete_where. apply filter_ext. intros r. simpl.
  now destruct (Z.eqb (row_id r) txn_id).
Qed.

Lemma filter_all {A} (p : A -> bool) (l : list A) :
  (forall x, In x l -> p x = true) -> filter p l = l.
Proof.
  induction l as [|x l IH]; simpl; intros H; [reflexivity|].
  rewrite (H x) by now left. f_equal. apply IH. intros y I. apply H. now right.
Qed.

Lemma filter_nothing {A} (p : A -> bool) (l : list A) :
  (forall x, In x l -> p x = false) -> filter p l = [].
Proof.
  induction l as [|x l IH]; simpl; intros H; [reflexivity|].
  rewrite (H x) by now left. apply IH. intros y I. apply H. now right.
Qed.

Lemma fetchone_none {A} (p : A -> bool) (l : list A) :
  Db.fetchone (filter p l) = None -> filter p l = [].
Proof. now destruct (filter p l). Qed.

Lemma fetchone_some {A} (p : A -> bool) (l : list A) (x : A) :
  Db.fetchone (filter p l) = Some x -> In x l /\ p x = true.
Proof.
  intros H. apply filter_In. destruct (filter p l) as [|y l']; [discriminate|].
  injection H as ->. now left.
Qed.

Lemma unique_key_elsewhere {A} (f : A -> Z) (l1 l2 : list A) (r x : A) :
  NoDup (map f (l1 ++ r :: l2)) -> In x (l1 ++ l2) -> Z.eqb (f x) (f r) = false.
Proof.
  intros ND I. rewrite map_app in ND. simpl in ND.
  apply NoDup_remove_2 in ND. rewrite <- map_app in ND.
  apply Z.eqb_neq. intros E. apply ND. rewrite <- E. now apply in_map.
Qed.

Lemma unique_key_select {A} (f : A -> Z) (l1 l2 : list A) (r : A) :
  NoDup (map f (l1 ++ r :: l2)) ->
  filter (fun x => Z.eqb (f x) (f r)) (l1 ++ r :: l2) = [r] /\
  filter (fun x => negb (Z.eqb (f x) (f r))) (l1 ++ r :: l2) = (l1 ++ l2)%list.
Proof.
  intros ND.
  assert (H : forall x, In x (l1 ++ l2) -> Z.eqb (f x) (f r) = false)
    by (intros x; now apply unique_key_elsewhere).
  rewrite !filter_app. simpl. rewrite Z.eqb_refl. simpl.
  rewrite (filter_nothing (fun x => Z.eqb (f x) (f r)) l1),
    (filter_nothing (fun x => Z.eqb (f x) (f r)) l2),
    (filter_all (fun x => negb (Z.eqb (f x) (f r))) l1),
    (filter_all (fun x => negb (Z.eqb (f x) (f r))) l2);
    [now split| | | |];
    intros x I; rewrite H; try reflexivity; apply in_or_app; tauto.
Qed.

(** The three ways the request ends. *)
Lemma delete_transaction_not_found (db : table) (current_user : routes.User)
  (txn_id : Z) :
  (forall r, In r db -> row_id r <> txn_id) ->
  routes.delete_transaction db current_user txn_id
  = (db, [("Transaction not found.", "danger")], redirect "transactions").
Proof.
  intros H. unfold routes.delete_transaction. rewrite select_row_id_is.
  rewrite filter_nothing; [reflexivity|].
  intros r I. apply Z.eqb_neq. now apply H.
Qed.

Lemma delete_transaction_found (db : table) (current_user : routes.User)
  (r : row) :
  NoDup (map row_id db) -> In r db ->
  exists l1 l2,
    db = (l1 ++ r :: l2)%list /\
    routes.delete_transaction db current_user (row_id r)
    = if Z.eqb (row_user_id r) (routes.id current_user)
      then ((l1 ++ l2)%list,
            [("Transaction deleted successfully.", "success")],
            redirect "transactions")
      else (db, [("Unauthorized action.", "danger")], redirect "transactions").
Proof.
  intros ND I. destruct (in_split _ _ I) as (l1 & l2 & ->).
  exists l1, l2. split; [reflexivity|].
  destruct (unique_key_select row_id l1 l2 r ND) as [S D].
  unfold routes.delete_transaction.
  rewrite select_row_id_is, delete_row_id_is, S, D. simpl.
  now destruct (Z.eqb (row_user_id r) (routes.id current_user)).
Qed.

(** X16. Deleting a transaction answers with a redirect to the list. It adds
    no row and removes at most the row with the id asked for; with the ids
    of the table distinct, as its primary key makes them, no row of
    another user is ever removed, whatever id is asked for. *)
Theorem delete_transaction_own_only (db : table) (current_user : routes.User)
  (txn_id : Z) :
  NoDup (map row_id db) ->
  let '(db', _, response) :=
    routes.delete_transaction db current_user txn_id in
  response = redirect "transactions" /\
  NoDup (map row_id db') /\
  (forall r, In r db' -> In r db) /\
  (forall r, In r db -> row_id r <> txn_id -> In r db') /\
  (forall r,
     In r db -> row_user_id r <> routes.id current_user -> In r db').
Proof.
  intros ND.
  destruct (in_dec Z.eq_dec txn_id (map row_id db)) as [I|NI].
  - apply in_map_iff in I. destruct I as (r & <- & I).
    destruct (@delete_transaction_found db current_user r ND I)
      as (l1 & l2 & E & ->).
    destruct (Z.eqb_spec (row_user_id r) (routes.id current_user)) as [O|O].
    + split; [reflexivity|]. subst db. split; [|split; [|split]].
      * rewrite map_app in *. simpl in ND. now apply NoDup_remove_1 in ND.
      * intros x Ix. apply in_app_or in Ix. apply in_or_app. simpl. tauto.
      * intros x Ix N. apply in_app_or in Ix. apply in_or_app.
        destruct Ix as [Ix|[<-|Ix]]; [now left|now contradiction N|now right].
      * intros x Ix N. apply in_app_or in Ix. apply in_or_app.
        destruct Ix as [Ix|[<-|Ix]]; [now left|now contradiction N|now right].
    + now repeat split.
  - rewrite delete_transaction_not_found; [now repeat split|].
    intros r I E. apply NI. rewrite <- E. now apply in_map.
Qed.

(** X16, witness: user 7 asks for the deletion of a transaction of user 8. *)
Lemma delete_transaction_own_only_witness :
  let '(db', _, _) :=
    routes.delete_transaction
      [ mk_row 1 7 "pay" "Job" "income" 100 "2024-01-01";
        mk_row 2 8 "gift" "Other" "income" 5 "2024-01-15" ]
      (routes.mk_User 7 "ann") 2 in
  In (mk_row 2 8 "gift" "Other" "income" 5 "2024-01-15") db'.
Proof.
  pose proof (@delete_transaction_own_only
                [ mk_row 1 7 "pay" "Job" "income" 100 "2024-01-01";
                  mk_row 2 8 "gift" "Other" "income" 5 "2024-01-15" ]
                (routes.mk_User 7 "ann") 2) as H.
  simpl in H. simpl.
  destruct H as (_ & _ & _ & _ & H).
  - constructor; [simpl; intros [E|[]]; discriminate E|].
    constructor; [intros []|constructor].
  - apply (H (mk_row 2 8 "gift" "Other" "income" 5 "2024-01-15")).
    + right. now left.
    + simpl. discriminate.
Defined.



(** X18. A deletion that succeeded cannot be repeated: the same request on
    the table it left finds no transaction and changes nothing. *)
Theorem delete_transaction_twice (db db' : table)
  (current_user : routes.User) (txn_id : Z) (response : response) :
  routes.delete_transaction db current_user txn_id
  = (db', [("Transaction deleted successfully.", "success")], response) ->
  routes.delete_transaction db' current_user txn_id
  = (db', [("Transaction not found.", "danger")], redirect "transactions").
Proof.
  unfold routes.delete_transaction at 1.
  destruct (Db.fetchone _) as [r|]; [|discriminate].
  destruct (negb _); [discriminate|].
  intros [= <- _]. apply delete_transaction_not_found.
  intros r' I. rewrite delete_row_id_is in I. apply filter_In in I.
  destruct I as [_ N]. apply Z.eqb_neq. now destruct (Z.eqb (row_id r') txn_id).
Qed.

(** X18, witness. *)
Lemma delete_transaction_twice_witness :
  routes.delete_transaction
    [mk_row 1 7 "pay" "Job" "income" 100 "2024-01-01"]
    (routes.mk_User 7 "ann") 2
  = ([mk_row 1 7 "pay" "Job" "income" 100 "2024-01-01"],
     [("Transaction not found.", "danger")], redirect "transactions").
Proof.
  apply (@delete_transaction_twice
           [ mk_row 1 7 "pay" "Job" "income" 100 "2024-01-01";
             mk_row 2 7 "lunch" "Food" "expenses" 40 "2024-01-02" ]
           [mk_row 1 7 "pay" "Job" "income" 100 "2024-01-01"]
           (routes.mk_User 7 "ann") 2 (redirect "transactions")).
  reflexivity.
Defined.





(** ** Deleting an account *)

Lemma users_where_id (i : Z) (us : list Db.user) :
  Db.users_where (Db.user_id_is i) us
  = filter (fun x => Z.eqb (Db.user_id x) i) us.
Proof.
  unfold Db.users_where. apply filter_ext. intros x. simpl.
  now destruct (Z.eqb (Db.user_id x) i).
Qed.

Lemma users_where_name (name : string) (us : list Db.user) :
  Db.users_where (Db.username_is name) us
  = filter (fun x => String.eqb (Db.user_username x) name) us.
Proof.
  unfold Db.users_where. apply filter_ext. intros x. simpl.
  now destruct (String.eqb (Db.user_username x) name).
Qed.

Lemma delete_row_user_is (i : Z) (db : table) :
  Db.delete_where (Db.row_user_is i) db
  = filter (fun r => negb (Z.eqb (row_user_id r) i)) db.
Proof.
  unfold Db.delete_where. apply filter_ext. intros r. simpl.
  now destruct (Z.eqb (row_user_id r) i).
Qed.

Lemma delete_user_id_is (i : Z) (us : list Db.user) :
  Db.delete_where (Db.user_id_is i) us
  = filter (fun x => negb (Z.eqb (Db.user_id x) i)) us.
Proof.
  unfold Db.delete_where. apply filter_ext. intros x. simpl.
  now destruct (Z.eqb (Db.user_id x) i).
Qed.

Lemma update_hash_id (i : Z) (h : string) (us : list Db.user) :
  Db.update_hash (Db.user_id_is i) h us
  = map (fun x =>
           if Z.eqb (Db.user_id x) i
           then Db.mk_user (Db.user_id x) (Db.user_username x) h
           else x)
      us.
Proof.
  unfold Db.update_hash. apply map_ext. intros x. simpl.
  now destruct (Z.eqb (Db.user_id x) i).
Qed.

Lemma of_user_deleted (i : Z) (db : table) :
  Spec.of_user i (filter (fun r => negb (Z.eqb (row_user_id r) i)) db) = [].
Proof.
  unfold Spec.of_user. rewrite filter_twice. apply filter_nothing.
  intros r _. now destruct (Z.eqb (row_user_id r) i).
Qed.

Lemma of_user_kept (i other : Z) (db : table) :
  other <> i ->
  Spec.of_user other (filter (fun r => negb (Z.eqb (row_user_id r) i)) db)
  = Spec.of_user other db.
Proof.
  intros N. unfold Spec.of_user. rewrite filter_twice. apply filter_ext.
  intros r. destruct (Z.eqb_spec (row_user_id r) other) as [->|_].
  - apply Z.eqb_neq in N. now rewrite N.
  - apply andb_false_r.
Qed.

Lemma user_deleted (i : Z) (us : list Db.user) :
  routes.User_get (filter (fun x => negb (Z.eqb (Db.user_id x) i)) us) i = None.
Proof.
  unfold routes.User_get. rewrite users_where_id, filter_twice.
  rewrite filter_nothing; [reflexivity|].
  intros x _. now destruct (Z.eqb (Db.user_id x) i).
Qed.

Lemma user_kept (i other : Z) (us : list Db.user) :
  other <> i ->
  routes.User_get (filter (fun x => negb (Z.eqb (Db.user_id x) i)) us) other
  = routes.User_get us other.
Proof.
  intros N. unfold routes.User_get. rewrite !users_where_id, filter_twice.
  rewrite (filter_ext
             (fun x => negb (Z.eqb (Db.user_id x) i)
                       && Z.eqb (Db.user_id x) other)
             (fun x => Z.eqb (Db.user_id x) other)); [reflexivity|].
  intros x. destruct (Z.eqb_spec (Db.user_id x) other) as [->|_].
  - apply Z.eqb_neq in N. now rewrite N.
  - apply andb_false_r.
Qed.

(** X20. Deleting an account removes the user's row and all the user's
    transactions and nothing else. Afterwards the id no longer loads a user,
    the user's summary is all zeros, the transaction list and the dashboard
    feed are empty; every other user is loaded as before and has the same
    transactions. The counter of the user ids is not touched. *)
Theorem delete_account_removes (db : Db.state) (current_user : routes.User) :
  let '(db', flashed, response) := routes.delete_account db current_user in
  (forall r,
     In r (Db.transactions db')
     <-> In r (Db.transactions db) /\ row_user_id r <> routes.id current_user) /\
  (forall x,
     In x (Db.users db')
     <-> In x (Db.users db) /\ Db.user_id x <> routes.id current_user) /\
  Db.users_seq db' = Db.users_seq db /\
  routes.User_get (Db.users db') (routes.id current_user) = None /\
  helpers.get_transaction_summary (Db.transactions db')
    (routes.id current_user)
  = (0, 0, 0) /\
  routes.transactions_get (Db.transactions db') current_user = Ok [] /\
  app.dashboard_data (Db.transactions db') (routes.id current_user)
  = Ok (app.mk_json 0 0 [] [] [] [] []) /\
  (forall other,
     other <> routes.id current_user ->
     Spec.of_user other (Db.transactions db')
     = Spec.of_user other (Db.transactions db) /\
     routes.User_get (Db.users db') other = routes.User_get (Db.users db) other) /\
  flashed = [("Your account has been deleted successfully.", "success")] /\
  response = redirect "index".
Proof.
  unfold routes.delete_account. cbv beta zeta iota.
  cbn [Db.transactions Db.users Db.users_seq].
  rewrite delete_row_user_is, delete_user_id_is.
  set (uid := routes.id current_user).
  split.
  { intros r. rewrite filter_In. split; intros [I N]; (split; [exact I|]).
    - intros E. apply Z.eqb_eq in E. now rewrite E in N.
    - apply Z.eqb_neq in N. now rewrite N. }
  split.
  { intros x. rewrite filter_In. split; intros [I N]; (split; [exact I|]).
    - intros E. apply Z.eqb_eq in E. now rewrite E in N.
    - apply Z.eqb_neq in N. now rewrite N. }
  split; [reflexivity|]. split; [apply user_deleted|].
  split.
  { unfold helpers.get_transaction_summary.
    now rewrite !select_type_of_user, of_user_deleted. }
  split.
  { unfold routes.transactions_get. fold uid.
    now rewrite select_row_user_is, of_user_deleted. }
  split.
  { unfold app.dashboard_data.
    now rewrite !select_type_of_user, !select_of_user, of_user_deleted. }
  split; [|now split].
  intros other N. split; [now apply of_user_kept|now apply user_kept].
Qed.

(** ** Logging in *)

Lemma falsy_false (s : option string) :
  PyStr.falsy s = false -> exists v, s = Some v /\ v <> "".
Proof.
  destruct s as [v|]; [|discriminate]. simpl. intros H. exists v.
  split; [reflexivity|]. now apply String.eqb_neq.
Qed.

Lemma differ_false (a b : option string) : PyStr.differ a b = false -> a = b.
Proof.
  destruct a as [x|], b as [y|]; simpl; try discriminate; [|reflexivity].
  intros H. apply negb_false_iff in H. apply String.eqb_eq in H. now subst.
Qed.

(** What a successful login rests on. *)
Lemma login_success (w : werkzeug) (us : list Db.user) (authenticated : bool)
  (method : string) (form : dict string) (user : routes.User)
  (flashed : flashes) (response : response) :
  routes.login w us authenticated method form
  = Done (Some user, flashed, response) ->
  exists row raw password,
    authenticated = false /\ method = "POST" /\
    get form "username" = Some raw /\
    get form "password" = Some password /\ password <> "" /\
    PyStr.strip raw <> "" /\
    Db.fetchone (Db.users_where (Db.username_is (PyStr.strip raw)) us)
    = Some row /\
    check_password_hash w (Db.user_hash row) password = true /\
    user = routes.mk_User (Db.user_id row) (Db.user_username row) /\
    flashed = [("Login successful!", "success")] /\
    response = redirect "dashboard".
Proof.
  unfold routes.login. destruct authenticated; [discriminate|].
  destruct (String.eqb_spec method "POST") as [->|_]; [|discriminate].
  destruct (get form "username") as [raw|]; [|discriminate].
  destruct (String.eqb_spec (PyStr.strip raw) "") as [_|Nn];
    [discriminate|]. simpl.
  destruct (PyStr.falsy (get form "password")) eqn:F; [discriminate|].
  apply falsy_false in F. destruct F as (password & -> & Np). simpl.
  destruct (Db.fetchone _) as [row|] eqn:R; [|discriminate].
  destruct (check_password_hash w (Db.user_hash row) password) eqn:C;
    [|discriminate].
  intros [= <- <- <-]. exists row, raw, password. now repeat split.
Qed.

(** X21. Nobody can log in as a deleted account: after the deletion, a
    request to the login route that logs a user in, whatever its form, logs
    in one of the remaining users, never one with the id of the deleted
    account. *)
Theorem delete_account_then_login (w : werkzeug) (db : Db.state)
  (current_user : routes.User) (authenticated : bool) (method : string)
  (form : dict string) (user : routes.User) (flashed : flashes)
  (response : response) :
  routes.login w (Db.users (fst (fst (routes.delete_account db current_user))))
    authenticated method form
  = Done (Some user, flashed, response) ->
  routes.id user <> routes.id current_user /\
  exists row,
    In row (Db.users db) /\
    user = routes.mk_User (Db.user_id row) (Db.user_username row).
Proof.
  intros H. apply login_success in H.
  destruct H as (row & raw & password & _ & _ & _ & _ & _ & _ & R & _ & U & _).
  unfold routes.delete_account in R. cbn [fst Db.users] in R.
  rewrite users_where_name, delete_user_id_is in R.
  apply fetchone_some in R. destruct R as [I _].
  apply filter_In in I. destruct I as [I N].
  subst user. cbn [routes.id]. split.
  - intros E. apply Z.eqb_eq in E. now rewrite E in N.
  - now exists row.
Qed.

(** X21, witness: once user 7 is gone, user 8 still logs in. *)
Lemma delete_account_then_login_witness :
  routes.id (routes.mk_User 8 "bob") <> routes.id (routes.mk_User 7 "ann").
Proof.
  apply (@delete_account_then_login
           (mk_werkzeug (fun salt password => password) String.eqb)
           (Db.mk_state
              [Db.mk_user 7 "ann" "secret77"; Db.mk_user 8 "bob" "secret88"]
              8 [])
           (routes.mk_User 7 "ann") false "POST"
           [("username", "bob"); ("password", "secret88")]
           (routes.mk_User 8 "bob")
           [("Login successful!", "success")] (redirect "dashboard")).
  reflexivity.
Defined.

(** ** Registering *)

Lemma lstrip_head (s : string) :
  match PyStr.lstrip s with
  | EmptyString => True
  | String c _ => PyStr.isspace c = false
  end.
Proof.
  induction s as [|c r IH]; simpl; [exact I|].
  destruct (PyStr.isspace c) eqn:E; [exact IH|exact E].
Qed.

Lemma rstrip_cons (c : ascii) (r : string) :
  PyStr.rstrip (String c r)
  = match PyStr.rstrip r with
    | EmptyString =>
        if PyStr.isspace c then EmptyString else String c EmptyString
    | r' => String c r'
    end.
Proof. reflexivity. Qed.

Lemma rstrip_idem (s : string) :
  PyStr.rstrip (PyStr.rstrip s) = PyStr.rstrip s.
Proof.
  induction s as [|c r IH]; [reflexivity|].
  rewrite (rstrip_cons c r). destruct (PyStr.rstrip r) as [|d r'] eqn:E.
  - destruct (PyStr.isspace c) eqn:S; [reflexivity|].
    rewrite rstrip_cons. simpl. now rewrite S.
  - rewrite rstrip_cons, IH. reflexivity.
Qed.

Lemma rstrip_head (c : ascii) (r : string) :
  PyStr.isspace c = false -> exists r', PyStr.rstrip (String c r) = String c r'.
Proof.
  intros S. rewrite rstrip_cons. destruct (PyStr.rstrip r); rewrite ?S; eauto.
Qed.

Lemma strip_idem (s : string) : PyStr.strip (PyStr.strip s) = PyStr.strip s.
Proof.
  unfold PyStr.strip. assert (H := lstrip_head s).
  destruct (PyStr.lstrip s) as [|c r]; [reflexivity|].
  destruct (@rstrip_head c r H) as [r' E]. rewrite E.
  cbn [PyStr.lstrip]. rewrite H, <- E. apply rstrip_idem.
Qed.

Lemma max_id_bound (us : list Db.user) (x : Db.user) :
  In x us -> (Db.user_id x <= fold_right Z.max 0%Z (map Db.user_id us))%Z.
Proof.
  induction us as [|y us IH]; simpl; [contradiction|].
  intros [->|H]; [lia|]. specialize (IH H). lia.
Qed.

Lemma next_id_above (seq : Z) (us : list Db.user) :
  (seq < Db.next_id seq us)%Z /\
  forall x, In x us -> (Db.user_id x < Db.next_id seq us)%Z.
Proof.
  unfold Db.next_id. split; [lia|].
  intros x H. apply max_id_bound in H. lia.
Qed.

Ltac rejected :=
  right; eexists _, _; split; [reflexivity|discriminate].

(** A registration either passes every check and inserts the user, or
    leaves the database as it was. *)
Lemma register_outcome (w : werkzeug) (salt : string) (db : Db.state)
  (authenticated : bool) (method : string) (form : dict string) :
  let name := PyStr.strip (get_or (get form "username") "") in
  (exists password,
     authenticated = false /\ method = "POST" /\ name <> "" /\
     get form "password" = Some password /\
     get form "confirmation" = Some password /\
     (8 <= String.length password)%nat /\
     filter (fun x => String.eqb (Db.user_username x) name) (Db.users db) = [] /\
     routes.register w salt db authenticated method form
     = (Db.insert_user name (generate_password_hash w salt password) db,
        [("Registered successfully! You can now log in.", "success")],
        redirect "login")) \/
  (exists flashed response,
     routes.register w salt db authenticated method form
     = (db, flashed, response) /\
     response <> redirect "login").
Proof.
  intros name. unfold routes.register. cbv zeta. fold name.
  destruct authenticated; [rejected|].
  destruct (String.eqb_spec method "POST") as [->|_]; [|rejected].
  destruct (String.eqb_spec name "") as [_|Nn]; [rejected|].
  destruct (PyStr.falsy (get form "password")) eqn:F; [rejected|].
  apply falsy_false in F. destruct F as (password & -> & Np).
  destruct (PyStr.differ (Some password) (get form "confirmation")) eqn:D;
    [rejected|].
  apply differ_false in D. cbn [get_or].
  destruct (Nat.ltb_spec (String.length password) 8) as [_|L]; [rejected|].
  rewrite users_where_name.
  destruct (Db.fetchone _) as [row|] eqn:R; [rejected|].
  apply fetchone_none in R. left. exists password.
  repeat (split; [reflexivity || assumption || (now symmetry)|]).
  reflexivity.
Qed.

Lemma no_user_named (name : string) (us : list Db.user) :
  filter (fun x => String.eqb (Db.user_username x) name) us = [] ->
  forall x, In x us -> Db.user_username x <> name.
Proof.
  intros F x H E. apply String.eqb_eq in E.
  assert (H' : In x (filter (fun x => String.eqb (Db.user_username x) name) us))
    by (apply filter_In; now split).
  now rewrite F in H'.
Qed.

(** X22. A registration changes the database only when it answers with the
    redirect to the login page. It does so only for an anonymous [POST]
    whose username is not empty once stripped and is not taken, and whose
    password has at least 8 characters and equals its confirmation. It then
    appends one user, the others and the transactions staying as they are:
    the new user has the stripped username, which stripping leaves as it
    is, the hash of the password, and an id above every id of the table and
    above the counter. *)
Theorem register_effect (w : werkzeug) (salt : string) (db db' : Db.state)
  (authenticated : bool) (method : string) (form : dict string)
  (flashed : flashes) (response : response) :
  routes.register w salt db authenticated method form
  = (db', flashed, response) ->
  let name := PyStr.strip (get_or (get form "username") "") in
  (response <> redirect "login" -> db' = db) /\
  (response = redirect "login" ->
   exists password new_id,
     authenticated = false /\ method = "POST" /\
     name <> "" /\ PyStr.strip name = name /\
     get form "password" = Some password /\
     get form "confirmation" = Some password /\
     (8 <= String.length password)%nat /\
     (forall x, In x (Db.users db) -> Db.user_username x <> name) /\
     (Db.users_seq db < new_id)%Z /\
     (forall x, In x (Db.users db) -> (Db.user_id x < new_id)%Z) /\
     db'
     = Db.mk_state
         (Db.users db
          ++ [Db.mk_user new_id name (generate_password_hash w salt password)])
         new_id (Db.transactions db)).
Proof.
  intros E name.
  destruct (register_outcome w salt db authenticated method form)
    as [(password & A & M & Nn & P & C & L & F & R)|(fl & resp & R & N)];
    rewrite R in E; injection E as <- <- <-.
  - split; [intros H; now contradiction H|]. intros _.
    exists password, (Db.next_id (Db.users_seq db) (Db.users db)).
    destruct (next_id_above (Db.users_seq db) (Db.users db)) as [B1 B2].
    repeat (split; [assumption|]).
    split; [apply strip_idem|].
    repeat (split; [assumption|]).
    split; [now apply no_user_named|].
    now repeat split.
  - split; [reflexivity|]. intros H. now contradiction N.
Qed.

(** X22, witness: a registration beside one existing user. *)
Lemma register_effect_witness :
  exists password new_id,
    get [("username", "  bob "); ("password", "secret88");
         ("confirmation", "secret88")] "password"
    = Some password /\
    (8 <= String.length password)%nat /\
    Db.insert_user "bob" "secret88"
      (Db.mk_state [Db.mk_user 7 "ann" "secret77"] 9 [])
    = Db.mk_state
        [Db.mk_user 7 "ann" "secret77"; Db.mk_user new_id "bob" password]
        new_id [].
Proof.
  destruct (@register_effect
              (mk_werkzeug (fun salt password => password) String.eqb) "salt"
              (Db.mk_state [Db.mk_user 7 "ann" "secret77"] 9 [])
              (Db.insert_user "bob" "secret88"
                 (Db.mk_state [Db.mk_user 7 "ann" "secret77"] 9 []))
              false "POST"
              [("username", "  bob "); ("password", "secret88");
               ("confirmation", "secret88")]
              [("Registered successfully! You can now log in.", "success")]
              (redirect "login") eq_refl)
    as [_ H].
  destruct (H eq_refl)
    as (password & new_id & _ & _ & _ & _ & P & _ & L & _ & _ & _ & E).
  exists password, new_id. split; [exact P|]. split; [exact L|exact E].
Defined.

Lemma keys_distinct_after_delete {B} (key : Db.user -> B)
  (keep : Db.user -> bool) (us : list Db.user) :
  NoDup (map key us) -> NoDup (map key (filter keep us)).
Proof.
  intros ND. induction us as [|u us IH]; simpl; [constructor|].
  inversion ND as [|k ks Nk ND']; subst.
  destruct (keep u); [|now apply IH]. simpl. constructor; [|now apply IH].
  rewrite in_map_iff. intros (y & E & H). apply filter_In in H.
  apply Nk. rewrite <- E. apply in_map. tauto.
Qed.

Lemma NoDup_map_snoc {A B} (f : A -> B) (l : list A) (x : A) :
  NoDup (map f l) -> (forall y, In y l -> f y <> f x) ->
  NoDup (map f (l ++ [x])).
Proof.
  intros ND H. rewrite map_app. simpl.
  apply (Permutation_NoDup (Permutation_cons_append (map f l) (f x))).
  constructor; [|exact ND].
  intros I. apply in_map_iff in I. destruct I as (y & E & I). now apply (H y).
Qed.

Lemma update_hash_ids (c : Db.user -> option bool) (h : string)
  (us : list Db.user) :
  map Db.user_id (Db.update_hash c h us) = map Db.user_id us /\
  map Db.user_username (Db.update_hash c h us) = map Db.user_username us.
Proof.
  unfold Db.update_hash. rewrite !map_map.
  split; apply map_ext; intros x; now destruct (Db.is_true (c x)).
Qed.

(** What a change of password leaves behind. *)
Lemma change_password_done (w : werkzeug) (salt : string) (us us' : list Db.user)
  (current_user : routes.User) (method : string) (form : dict string)
  (flashed : flashes) (response : response) :
  routes.change_password w salt us current_user method form
  = Done (us', flashed, response) ->
  response = redirect "profile" /\
  (us' = us /\ flashed <> [("Password updated successfully!", "success")] \/
   exists old new row,
     method = "POST" /\
     get form "old_password" = Some old /\ old <> "" /\
     get form "new_password" = Some new /\ new <> "" /\
     get form "confirm_new_password" = Some new /\
     get form "username" = Some (routes.username current_user) /\
     Db.fetchone (Db.users_where (Db.user_id_is (routes.id current_user)) us)
     = Some row /\
     check_password_hash w (Db.user_hash row) old = true /\
     us'
     = Db.update_hash (Db.user_id_is (routes.id current_user))
         (generate_password_hash w salt new) us /\
     flashed = [("Password updated successfully!", "success")]).
Proof.
  unfold routes.change_password.
  destruct (String.eqb_spec method "POST") as [->|_].
  2: { intros [= <- <- <-]. split; [reflexivity|]. left. now split. }
  cbv zeta.
  destruct (PyStr.falsy (get form "old_password")) eqn:Fo.
  { intros [= <- <- <-]. split; [reflexivity|]. left. now split. }
  destruct (PyStr.falsy (get form "new_password")) eqn:Fn.
  { intros [= <- <- <-]. split; [reflexivity|]. left. now split. }
  destruct (PyStr.falsy (get form "confirm_new_password")) eqn:Fc.
  { intros [= <- <- <-]. split; [reflexivity|]. left. now split. }
  cbn [orb].
  destruct (PyStr.differ (get form "new_password")
              (get form "confirm_new_password")) eqn:D.
  { intros [= <- <- <-]. split; [reflexivity|]. left. now split. }
  destruct (PyStr.differ (get form "username")
              (Some (routes.username current_user))) eqn:Du.
  { intros [= <- <- <-]. split; [reflexivity|]. left. now split. }
  destruct (Db.fetchone _) as [row|] eqn:R; [|discriminate].
  apply falsy_false in Fo. destruct Fo as (old & Eo & No).
  apply falsy_false in Fn. destruct Fn as (new & En & Nn).
  apply differ_false in D. apply differ_false in Du.
  rewrite Eo, En. cbn [get_or].
  destruct (check_password_hash w (Db.user_hash row) old) eqn:C; cbn [negb].
  2: { intros [= <- <- <-]. split; [reflexivity|]. left. now split. }
  intros [= <- <- <-]. split; [reflexivity|]. right.
  exists old, new, row. rewrite <- D, En. now repeat split.
Qed.

(** X23. The three requests that write to table [users] keep its keys in
    order: after a registration, a deletion of an account or a change of
    password the ids are still distinct, the usernames are still distinct,
    and no id is above the counter, which never goes down. *)
Theorem users_keys_preserved (w : werkzeug) (salt : string) (db : Db.state)
  (current_user : routes.User) (authenticated : bool) (method : string)
  (form : dict string) :
  NoDup (map Db.user_id (Db.users db)) ->
  NoDup (map Db.user_username (Db.users db)) ->
  Forall (fun x => (Db.user_id x <= Db.users_seq db)%Z) (Db.users db) ->
  let kept db' :=
    NoDup (map Db.user_id (Db.users db')) /\
    NoDup (map Db.user_username (Db.users db')) /\
    Forall (fun x => (Db.user_id x <= Db.users_seq db')%Z) (Db.users db') /\
    (Db.users_seq db <= Db.users_seq db')%Z in
  kept (fst (fst (routes.register w salt db authenticated method form))) /\
  kept (fst (fst (routes.delete_account db current_user))) /\
  (forall us' flashed response,
     routes.change_password w salt (Db.users db) current_user method form
     = Done (us', flashed, response) ->
     kept (Db.mk_state us' (Db.users_seq db) (Db.transactions db))).
Proof.
  intros Ni Nu B kept.
  assert (K : kept db) by (unfold kept; repeat split; (assumption || lia)).
  split; [|split].
  - destruct (register_outcome w salt db authenticated method form)
      as [(password & _ & _ & _ & _ & _ & _ & F & R)|(fl & resp & R & _)];
      rewrite R; cbn [fst]; [|exact K].
    destruct (next_id_above (Db.users_seq db) (Db.users db)) as [B1 B2].
    unfold kept, Db.insert_user. cbn [Db.users Db.users_seq].
    split; [|split; [|split]].
    + apply NoDup_map_snoc; [exact Ni|].
      intros y H. simpl. specialize (B2 y H). lia.
    + apply NoDup_map_snoc; [exact Nu|].
      intros y H. simpl. now apply (@no_user_named _ _ F).
    + apply Forall_app. split.
      * rewrite Forall_forall in *. intros x H. specialize (B2 x H). lia.
      * constructor; [simpl; lia|constructor].
    + lia.
  - unfold routes.delete_account, kept. cbn [fst Db.users Db.users_seq].
    rewrite delete_user_id_is.
    split; [now apply keys_distinct_after_delete|].
    split; [now apply keys_distinct_after_delete|]. split; [|lia].
    rewrite Forall_forall in *. intros x H. apply filter_In in H. apply B, H.
  - intros us' fl resp E. apply change_password_done in E.
    destruct E as [_ [[-> _]|(old & new & row & _ & _ & _ & _ & _ & _ & _ & _ & _ & -> & _)]].
    + destruct db; exact K.
    + unfold kept. cbn [Db.users Db.users_seq].
      destruct (update_hash_ids (Db.user_id_is (routes.id current_user))
                  (generate_password_hash w salt new) (Db.users db))
        as [Ei Eu].
      rewrite Ei, Eu. split; [exact Ni|]. split; [exact Nu|]. split; [|lia].
      unfold Db.update_hash. apply Forall_map.
      rewrite Forall_forall in *. intros x H. specialize (B x H).
      now destruct (Db.is_true _).
Qed.

(** X23, witness: a registration into a table of one user. *)
Lemma users_keys_preserved_witness :
  NoDup
    (map Db.user_id
       (Db.users
          (fst (fst (routes.register
                       (mk_werkzeug (fun salt password => password) String.eqb)
                       "salt"
                       (Db.mk_state [Db.mk_user 7 "ann" "secret77"] 9 [])
                       false "POST"
                       [("username", "bob"); ("password", "secret88");
                        ("confirmation", "secret88")]))))).
Proof.
  apply (@users_keys_preserved
           (mk_werkzeug (fun salt password => password) String.eqb) "salt"
           (Db.mk_state [Db.mk_user 7 "ann" "secret77"] 9 [])
           (routes.mk_User 7 "ann") false "POST"
           [("username", "bob"); ("password", "secret88");
            ("confirmation", "secret88")]).
  - simpl. constructor; [intros []|constructor].
  - simpl. constructor; [intros []|constructor].
  - simpl. constructor; [simpl; lia|constructor].
Defined.

(** ** Registering, then logging in *)

Lemma login_accepts (w : werkzeug) (us : list Db.user) (form : dict string)
  (raw password : string) (row : Db.user) :
  get form "username" = Some raw -> PyStr.strip raw <> "" ->
  get form "password" = Some password -> password <> "" ->
  Db.fetchone (Db.users_where (Db.username_is (PyStr.strip raw)) us)
  = Some row ->
  check_password_hash w (Db.user_hash row) password = true ->
  routes.login w us false "POST" form
  = Done (Some (routes.mk_User (Db.user_id row) (Db.user_username row)),
          [("Login successful!", "success")], redirect "dashboard").
Proof.
  intros Eu Nu Ep Np R C. unfold routes.login. cbn [String.eqb Ascii.eqb].
  change (String.eqb "POST" "POST") with true. cbv iota.
  rewrite Eu. cbv zeta. rewrite Ep, R. cbn [get_or PyStr.falsy].
  apply String.eqb_neq in Nu, Np. now rewrite Nu, Np, C.
Qed.

(** X24. With a hashing whose check accepts the password a hash was made
    from, a registration that succeeded can be followed by a login with the
    same form: the login succeeds, as the user just inserted, under the
    stripped username, and that user is the one its id loads. *)
Theorem register_then_login (w : werkzeug) (salt : string) (db db' : Db.state)
  (form : dict string) (flashed : flashes) :
  (forall salt password,
     check_password_hash w (generate_password_hash w salt password) password
     = true) ->
  routes.register w salt db false "POST" form
  = (db', flashed, redirect "login") ->
  exists user,
    routes.login w (Db.users db') false "POST" form
    = Done (Some user, [("Login successful!", "success")],
            redirect "dashboard") /\
    routes.username user = PyStr.strip (get_or (get form "username") "") /\
    routes.User_get (Db.users db') (routes.id user) = Some user /\
    routes.User_get (Db.users db) (routes.id user) = None.
Proof.
  intros W E.
  destruct (register_outcome w salt db false "POST" form)
    as [(password & _ & _ & Nn & P & _ & L & F & R)|(fl & resp & R & N)];
    rewrite R in E; injection E as <- <-; [|now contradiction N].
  destruct (get form "username") as [raw|] eqn:Eu;
    [|now contradiction Nn]. cbn [get_or] in *.
  destruct (next_id_above (Db.users_seq db) (Db.users db)) as [_ B].
  set (new := Db.mk_user (Db.next_id (Db.users_seq db) (Db.users db))
                (PyStr.strip raw) (generate_password_hash w salt password)).
  assert (Np : password <> "") by (intros ->; simpl in L; lia).
  exists (routes.mk_User (Db.user_id new) (Db.user_username new)).
  unfold Db.insert_user. cbn [Db.users]. fold new.
  split; [|split; [reflexivity|split]].
  - apply (@login_accepts w _ form raw password new Eu Nn P Np); [|apply W].
    rewrite users_where_name, filter_app, F. simpl.
    now rewrite String.eqb_refl.
  - unfold routes.User_get. rewrite users_where_id, filter_app.
    rewrite filter_nothing.
    + simpl. now rewrite Z.eqb_refl.
    + intros x H. apply Z.eqb_neq. specialize (B x H). simpl. lia.
  - unfold routes.User_get. rewrite users_where_id.
    rewrite filter_nothing; [reflexivity|].
    intros x H. apply Z.eqb_neq. specialize (B x H). simpl. lia.
Qed.

(** X24, witness: bob registers, then logs in. *)
Lemma register_then_login_witness :
  exists user,
    routes.login (mk_werkzeug (fun salt password => password) String.eqb)
      [Db.mk_user 7 "ann" "secret77"; Db.mk_user 10 "bob" "secret88"]
      false "POST"
      [("username", "  bob "); ("password", "secret88");
       ("confirmation", "secret88")]
    = Done (Some user, [("Login successful!", "success")],
            redirect "dashboard") /\
    routes.username user = "bob".
Proof.
  destruct (@register_then_login
              (mk_werkzeug (fun salt password => password) String.eqb) "salt"
              (Db.mk_state [Db.mk_user 7 "ann" "secret77"] 9 [])
              (Db.mk_state
                 [Db.mk_user 7 "ann" "secret77"; Db.mk_user 10 "bob" "secret88"]
                 10 [])
              [("username", "  bob "); ("password", "secret88");
               ("confirmation", "secret88")]
              [("Registered successfully! You can now log in.", "success")])
    as (user & E & N & _).
  - intros salt password. simpl. apply String.eqb_refl.
  - reflexivity.
  - exists user. split; [exact E|exact N].
Defined.

(** ** Logging in *)

(** X25. The login route logs a user in exactly when the request is an
    anonymous [POST] with a username that is not empty once stripped and a
    password that is not empty, the first user stored under the stripped
    username exists, and the password passes the check against the hash of
    that user. The user logged in is that user; in every other case nobody
    is logged in. *)
Theorem login_exactly_when (w : werkzeug) (us : list Db.user)
  (authenticated : bool) (method : string) (form : dict string)
  (user : routes.User) :
  (exists flashed response,
     routes.login w us authenticated method form
     = Done (Some user, flashed, response))
  <-> exists row raw password,
        authenticated = false /\ method = "POST" /\
        get form "username" = Some raw /\ PyStr.strip raw <> "" /\
        get form "password" = Some password /\ password <> "" /\
        In row us /\ Db.user_username row = PyStr.strip raw /\
        Db.fetchone (Db.users_where (Db.username_is (PyStr.strip raw)) us)
        = Some row /\
        check_password_hash w (Db.user_hash row) password = true /\
        user = routes.mk_User (Db.user_id row) (Db.user_username row).
Proof.
  split.
  - intros (fl & resp & H). apply login_success in H.
    destruct H as (row & raw & password & A & M & Eu & Ep & Np & Nu & R & C
                   & U & _).
    exists row, raw, password.
    assert (R' := R). rewrite users_where_name in R'.
    apply fetchone_some in R'. destruct R' as [I N].
    apply String.eqb_eq in N. now repeat split.
  - intros (row & raw & password & -> & -> & Eu & Nu & Ep & Np & _ & _ & R & C
            & ->).
    eexists _, _. now apply login_accepts with raw password.
Qed.

(** X26. A [POST] to the login route without a [username] field ends in an
    uncaught [AttributeError], the field being stripped before it is
    looked at; the same form sent to the registration route is answered
    with a message and leaves the database as it was. *)
Theorem login_missing_username (w : werkzeug) (salt : string)
  (db : Db.state) (form : dict string) :
  get form "username" = None ->
  routes.login w (Db.users db) false "POST" form
  = Uncaught "AttributeError" "'NoneType' object has no attribute 'strip'" /\
  routes.register w salt db false "POST" form
  = (db, [("Must provide username", "danger")],
     render_template "register.html").
Proof.
  intros E. unfold routes.login, routes.register. now rewrite E.
Qed.

(** X26, witness: a form with a password only. *)
Lemma login_missing_username_witness :
  routes.login (mk_werkzeug (fun salt password => password) String.eqb)
    [Db.mk_user 7 "ann" "secret77"] false "POST" [("password", "secret77")]
  = Uncaught "AttributeError" "'NoneType' object has no attribute 'strip'".
Proof.
  apply (@login_missing_username
           (mk_werkzeug (fun salt password => password) String.eqb) "salt"
           (Db.mk_state [Db.mk_user 7 "ann" "secret77"] 7 [])
           [("password", "secret77")]).
  reflexivity.
Defined.

(** ** Changing the password *)

(** X27. A change of password that returns answers with the redirect to the
    profile and leaves every user's id and username, and every other
    user's row, as they were. It rewrites hashes only when it reports
    success, which it does only for a [POST] with the three password
    fields filled, the new password equal to its confirmation, the
    username field equal to the user's name, and an old password that
    passes the check against the stored hash; then the rows with the
    user's id get the hash of the new password. *)
Theorem change_password_effect (w : werkzeug) (salt : string)
  (us us' : list Db.user) (current_user : routes.User) (method : string)
  (form : dict string) (flashed : flashes) (response : response) :
  routes.change_password w salt us current_user method form
  = Done (us', flashed, response) ->
  response = redirect "profile" /\
  map Db.user_id us' = map Db.user_id us /\
  map Db.user_username us' = map Db.user_username us /\
  (forall x,
     In x us -> Db.user_id x <> routes.id current_user -> In x us') /\
  (flashed <> [("Password updated successfully!", "success")] -> us' = us) /\
  (flashed = [("Password updated successfully!", "success")] ->
   exists old new row,
     method = "POST" /\
     get form "old_password" = Some old /\
     get form "new_password" = Some new /\ new <> "" /\
     get form "confirm_new_password" = Some new /\
     get form "username" = Some (routes.username current_user) /\
     In row us /\ Db.user_id row = routes.id current_user /\
     check_password_hash w (Db.user_hash row) old = true /\
     us'
     = map (fun x =>
              if Z.eqb (Db.user_id x) (routes.id current_user)
              then Db.mk_user (Db.user_id x) (Db.user_username x)
                     (generate_password_hash w salt new)
              else x)
         us).
Proof.
  intros E. apply change_password_done in E.
  destruct E as [-> [[-> N]|(old & new & row & M & Eo & No & En & Nn & Ec & Eu
                             & R & C & -> & ->)]].
  - repeat (split; [reflexivity|]). split; [now intros x H _|].
    split; [reflexivity|]. intros H. now contradiction N.
  - destruct (update_hash_ids (Db.user_id_is (routes.id current_user))
                (generate_password_hash w salt new) us) as [Ei En'].
    split; [reflexivity|]. split; [exact Ei|]. split; [exact En'|].
    rewrite update_hash_id. split; [|split].
    + intros x H N. apply in_map_iff. exists x. split; [|exact H].
      apply Z.eqb_neq in N. now rewrite N.
    + intros H. now contradiction H.
    + intros _. exists old, new, row.
      rewrite users_where_id in R. apply fetchone_some in R.
      destruct R as [I Ei']. apply Z.eqb_eq in Ei'. now repeat split.
Qed.

(** X27, witness: ann changes her password; bob's row stays. *)
Lemma change_password_effect_witness :
  In (Db.mk_user 8 "bob" "secret88")
    [Db.mk_user 7 "ann" "newpass"; Db.mk_user 8 "bob" "secret88"].
Proof.
  destruct (@change_password_effect
              (mk_werkzeug (fun salt password => password) String.eqb) "salt"
              [Db.mk_user 7 "ann" "secret77"; Db.mk_user 8 "bob" "secret88"]
              [Db.mk_user 7 "ann" "newpass"; Db.mk_user 8 "bob" "secret88"]
              (routes.mk_User 7 "ann") "POST"
              [("old_password", "secret77"); ("new_password", "newpass");
               ("confirm_new_password", "newpass"); ("username", "ann")]
              [("Password updated successfully!", "success")]
              (redirect "profile") eq_refl)
    as (_ & _ & _ & H & _).
  apply (H (Db.mk_user 8 "bob" "secret88")).
  - right. now left.
  - simpl. discriminate.
Defined.

Lemma unique_key_neq {A B} (f : A -> B) (l1 l2 : list A) (r x : A) :
  NoDup (map f (l1 ++ r :: l2)) -> In x (l1 ++ l2) -> f x <> f r.
Proof.
  intros ND I. rewrite map_app in ND. simpl in ND.
  apply NoDup_remove_2 in ND. rewrite <- map_app in ND.
  intros E. apply ND. rewrite <- E. now apply in_map.
Qed.

(** X28. With a hashing whose check accepts the password a hash was made
    from and distinct usernames, a user whose stored name is stripped and
    whose change of password succeeded logs in with the new password. *)
Theorem change_password_then_login (w : werkzeug) (salt : string)
  (us us' : list Db.user) (current_user : routes.User) (method : string)
  (form : dict string) (response : response) (new : string) :
  (forall salt password,
     check_password_hash w (generate_password_hash w salt password) password
     = true) ->
  NoDup (map Db.user_username us) ->
  PyStr.strip (routes.username current_user) = routes.username current_user ->
  routes.username current_user <> "" ->
  routes.User_get us (routes.id current_user) = Some current_user ->
  routes.change_password w salt us current_user method form
  = Done (us', [("Password updated successfully!", "success")], response) ->
  get form "new_password" = Some new ->
  routes.login w us' false "POST"
    [("username", routes.username current_user); ("password", new)]
  = Done (Some current_user, [("Login successful!", "success")],
          redirect "dashboard").
Proof.
  intros W ND S Nn G E En. apply change_password_done in E.
  destruct E as [_ [[_ N]|(old & new' & row & _ & _ & _ & En' & Nn' & _ & _
                           & R & _ & -> & _)]]; [now contradiction N|].
  rewrite En in En'. injection En' as <-.
  unfold routes.User_get in G. rewrite R in G. injection G as G.
  rewrite users_where_id in R. apply fetchone_some in R.
  destruct R as [I Ei]. apply Z.eqb_eq in Ei.
  destruct (in_split _ _ I) as (l1 & l2 & ->).
  set (h := generate_password_hash w salt new).
  assert (Eu : Db.user_username row = routes.username current_user)
    by now rewrite <- G.
  replace (Some current_user)
    with (Some (routes.mk_User
                  (Db.user_id (Db.mk_user (Db.user_id row)
                                 (Db.user_username row) h))
                  (Db.user_username (Db.mk_user (Db.user_id row)
                                       (Db.user_username row) h))))
    by exact (f_equal Some G).
  apply login_accepts
    with (raw := routes.username current_user) (password := new);
    try reflexivity; try assumption.
  - now rewrite S.
  - rewrite S, users_where_name, update_hash_id, map_app, filter_app.
    rewrite filter_nothing.
    + simpl. rewrite Ei, Z.eqb_refl. simpl.
      apply String.eqb_eq in Eu. now rewrite Eu.
    + intros x H. apply in_map_iff in H. destruct H as (y & <- & H).
      apply String.eqb_neq. rewrite <- Eu.
      replace (Db.user_username
                 (if Z.eqb (Db.user_id y) (routes.id current_user)
                  then Db.mk_user (Db.user_id y) (Db.user_username y) h
                  else y))
        with (Db.user_username y)
        by now destruct (Z.eqb (Db.user_id y) (routes.id current_user)).
      apply (@unique_key_neq _ _ Db.user_username l1 l2 row y ND).
      apply in_or_app. now left.
  - simpl. apply W.
Qed.

(** X28, witness: ann changes her password and logs in with the new one. *)
Lemma change_password_then_login_witness :
  routes.login (mk_werkzeug (fun salt password => password) String.eqb)
    [Db.mk_user 7 "ann" "newpass"; Db.mk_user 8 "bob" "secret88"]
    false "POST" [("username", "ann"); ("password", "newpass")]
  = Done (Some (routes.mk_User 7 "ann"), [("Login successful!", "success")],
          redirect "dashboard").
Proof.
  apply (@change_password_then_login
           (mk_werkzeug (fun salt password => password) String.eqb) "salt"
           [Db.mk_user 7 "ann" "secret77"; Db.mk_user 8 "bob" "secret88"]
           [Db.mk_user 7 "ann" "newpass"; Db.mk_user 8 "bob" "secret88"]
           (routes.mk_User 7 "ann") "POST"
           [("old_password", "secret77"); ("new_password", "newpass");
            ("confirm_new_password", "newpass"); ("username", "ann")]
           (redirect "profile") "newpass").
  - intros salt password. simpl. apply String.eqb_refl.
  - simpl. constructor; [simpl; intros [E|[]]; discriminate E|].
    constructor; [intros []|constructor].
  - reflexivity.
  - discriminate.
  - reflexivity.
  - reflexivity.
  - reflexivity.
Defined.

(** X29. The change of password has no check on the length of the new
    password: with the fields filled, the confirmation equal, the username
    right and the old password accepted, any new password that is not empty
    is stored, one of fewer than 8 characters too, which the registration
    rejects. *)
Theorem change_password_any_length (w : werkzeug) (salt : string)
  (us : list Db.user) (current_user : routes.User) (form : dict string)
  (old new : string) (row : Db.user) :
  get form "old_password" = Some old -> old <> "" ->
  get form "new_password" = Some new -> new <> "" ->
  get form "confirm_new_password" = Some new ->
  get form "username" = Some (routes.username current_user) ->
  Db.fetchone (Db.users_where (Db.user_id_is (routes.id current_user)) us)
  = Some row ->
  check_password_hash w (Db.user_hash row) old = true ->
  routes.change_password w salt us current_user "POST" form
  = Done (Db.update_hash (Db.user_id_is (routes.id current_user))
            (generate_password_hash w salt new) us,
          [("Password updated successfully!", "success")],
          redirect "profile") /\
  ((String.length new < 8)%nat ->
   forall salt' db form',
     PyStr.strip (get_or (get form' "username") "") <> "" ->
     get form' "password" = Some new ->
     get form' "confirmation" = Some new ->
     routes.register w salt' db false "POST" form'
     = (db, [("Password must be at least 8 characters long", "danger")],
        render_template "register.html")).
Proof.
  intros Eo No En Nn Ec Eu R C. split.
  - unfold routes.change_password.
    change (String.eqb "POST" "POST") with true. cbv iota zeta.
    rewrite Eo, En, Ec, Eu, R. cbn [PyStr.falsy PyStr.differ get_or].
    apply String.eqb_neq in No, Nn.
    now rewrite No, Nn, !String.eqb_refl, C.
  - intros L salt' db form' Nu Ep Ecf. unfold routes.register.
    change (String.eqb "POST" "POST") with true. cbv iota zeta.
    rewrite Ep, Ecf. cbn [PyStr.falsy PyStr.differ get_or].
    apply String.eqb_neq in Nu, Nn. rewrite Nu, Nn, String.eqb_refl.
    apply Nat.ltb_lt in L. now rewrite L.
Qed.

(** X29, witness: a new password of one character is stored. *)
Lemma change_password_any_length_witness :
  routes.change_password
    (mk_werkzeug (fun salt password => password) String.eqb) "salt"
    [Db.mk_user 7 "ann" "secret77"] (routes.mk_User 7 "ann") "POST"
    [("old_password", "secret77"); ("new_password", "x");
     ("confirm_new_password", "x"); ("username", "ann")]
  = Done ([Db.mk_user 7 "ann" "x"],
          [("Password updated successfully!", "success")],
          redirect "profile").
Proof.
  apply (@change_password_any_length
           (mk_werkzeug (fun salt password => password) String.eqb) "salt"
           [Db.mk_user 7 "ann" "secret77"] (routes.mk_User 7 "ann")
           [("old_password", "secret77"); ("new_password", "x");
            ("confirm_new_password", "x"); ("username", "ann")]
           "secret77" "x" (Db.mk_user 7 "ann" "secret77"));
    try reflexivity; discriminate.
Defined.

(** ** The ids of deleted accounts *)

(** X30. The id of a deleted account is not given out again: when no id was
    above the counter, a registration that follows the deletion, whatever
    its form, leaves a table in which no user has the id of the deleted
    account, so that the id loads nobody. *)
Theorem deleted_id_not_reused (w : werkzeug) (salt : string) (db : Db.state)
  (current_user : routes.User) (authenticated : bool) (method : string)
  (form : dict string) :
  Forall (fun x => (Db.user_id x <= Db.users_seq db)%Z) (Db.users db) ->
  (exists row, In row (Db.users db) /\ Db.user_id row = routes.id current_user) ->
  let db1 := fst (fst (routes.delete_account db current_user)) in
  let db2 :=
    fst (fst (routes.register w salt db1 authenticated method form)) in
  (forall x, In x (Db.users db2) -> Db.user_id x <> routes.id current_user) /\
  routes.User_get (Db.users db2) (routes.id current_user) = None.
Proof.
  intros B (row & I & Ei) db1 db2.
  assert (U : Db.users db1
              = filter (fun x => negb (Z.eqb (Db.user_id x)
                                         (routes.id current_user)))
                  (Db.users db))
    by apply delete_user_id_is.
  assert (Q : Db.users_seq db1 = Db.users_seq db) by reflexivity.
  clearbody db1.
  assert (L : (routes.id current_user <= Db.users_seq db1)%Z).
  { rewrite Forall_forall in B. specialize (B row I). rewrite Q. lia. }
  assert (N : forall x,
            In x (Db.users db2) -> Db.user_id x <> routes.id current_user).
  { intros x. unfold db2.
    destruct (register_outcome w salt db1 authenticated method form)
      as [(password & _ & _ & _ & _ & _ & _ & _ & R)|(fl & resp & R & _)];
      rewrite R; cbn [fst].
    - unfold Db.insert_user. cbn [Db.users]. intros H.
      apply in_app_or in H. destruct H as [H|[<-|[]]].
      + rewrite U in H. apply filter_In in H. destruct H as [_ H].
        intros E. apply Z.eqb_eq in E. now rewrite E in H.
      + destruct (next_id_above (Db.users_seq db1) (Db.users db1)) as [S _].
        cbn [Db.user_id]. lia.
    - rewrite U. intros H. apply filter_In in H. destruct H as [_ H].
      intros E. apply Z.eqb_eq in E. now rewrite E in H. }
  split; [exact N|].
  unfold routes.User_get. rewrite users_where_id.
  rewrite filter_nothing; [reflexivity|].
  intros x H. apply Z.eqb_neq. now apply N.
Qed.

(** X30, witness: user 9 is deleted, the next user gets the id 10. *)
Lemma deleted_id_not_reused_witness :
  routes.User_get
    (Db.users
       (fst (fst (routes.register
                    (mk_werkzeug (fun salt password => password) String.eqb)
                    "salt"
                    (fst (fst (routes.delete_account
                                 (Db.mk_state
                                    [Db.mk_user 7 "ann" "secret77";
                                     Db.mk_user 9 "bob" "secret88"]
                                    9 [])
                                 (routes.mk_User 9 "bob"))))
                    false "POST"
                    [("username", "carl"); ("password", "secret99");
                     ("confirmation", "secret99")]))))
    9
  = None.
Proof.
  apply (@deleted_id_not_reused
           (mk_werkzeug (fun salt password => password) String.eqb) "salt"
           (Db.mk_state
              [Db.mk_user 7 "ann" "secret77"; Db.mk_user 9 "bob" "secret88"]
              9 [])
           (routes.mk_User 9 "bob") false "POST"
           [("username", "carl"); ("password", "secret99");
            ("confirmation", "secret99")]).
  - simpl. constructor; [simpl; lia|].
    constructor; [simpl; lia|constructor].
  - exists (Db.mk_user 9 "bob" "secret88"). split; [|reflexivity].
    right. now left.
Defined.
